(** * SmolDocling document processor: a shallow embedding of [main.py]

    The pipeline of [main.py] is embedded function by function:
    [load_input_resource], the body of [process_document] (upload
    handling, the per-page streaming loop, assembly, export) and
    [prepare_download].  Everything the script imports (requests,
    pdf2image, PIL, mlx_vlm, docling_core, tempfile) is an external
    collaborator: its behaviour is a field of the record [World], so every
    theorem holds for all behaviours of those libraries.  The library
    behaviour that decides a statement is written out: [raise_for_status]
    of requests, the [max_tokens] cut of [stream_generate], the line ends
    of a file read in text mode, and which exceptions [except Exception]
    catches.

    Python [str] values are modelled by [string] (one character per code
    point below 256), [bytes] by [list byte], the file system by a
    [gmap string (list byte)], and a Python exception by a value of [exn]
    carried on the left of a sum. *)

From Stdlib Require Import ZArith NArith Ascii String List Bool Lia.
From Stdlib.Strings Require Import Byte.
From Stdlib Require Import DecimalString.
From stdpp Require Import base option list strings gmap fin_maps.

Local Open Scope string_scope.
Local Open Scope list_scope.
Local Open Scope nat_scope.

(** ** Python text primitives *)

Module PyStr.

(** [needle in hay] on [str]. *)
Fixpoint contains (needle hay : string) : bool :=
  String.prefix needle hay ||
  match hay with
  | EmptyString => false
  | String _ rest => contains needle rest
  end.

(** [str.isspace] for one character (code points below 256). *)
Definition isspace (c : ascii) : bool :=
  let n := nat_of_ascii c in
  ((9 <=? n) && (n <=? 13)) || ((28 <=? n) && (n <=? 32))
  || (n =? 133) || (n =? 160).

Fixpoint lstrip (s : string) : string :=
  match s with
  | String c rest => if isspace c then lstrip rest else s
  | EmptyString => EmptyString
  end.

(** [rstrip], written as a right fold so that the recursion is
    structural: a trailing run of blanks is dropped. *)
Fixpoint rstrip (s : string) : string :=
  match s with
  | EmptyString => EmptyString
  | String c rest =>
      match rstrip rest with
      | EmptyString => if isspace c then EmptyString else String c EmptyString
      | r => String c r
      end
  end.

(** [s.strip()] *)
Definition strip (s : string) : string := rstrip (lstrip s).

(** [str.lower] on one character.  Only the ASCII letters matter to the
    comparisons of [main.py]: no other character lowers to one of the
    characters of [".pdf"]. *)
Definition lower_ascii (c : ascii) : ascii :=
  let n := nat_of_ascii c in
  if (65 <=? n) && (n <=? 90) then ascii_of_nat (n + 32) else c.

Fixpoint lower (s : string) : string :=
  match s with
  | EmptyString => EmptyString
  | String c rest => String (lower_ascii c) (lower rest)
  end.

(** [s.split(sep)] for a one-character separator. *)
Fixpoint split (sep : ascii) (s : string) : list string :=
  match s with
  | EmptyString => [EmptyString]
  | String c rest =>
      if Ascii.eqb c sep then EmptyString :: split sep rest
      else match split sep rest with
           | [] => [String c EmptyString]
           | w :: ws => String c w :: ws
           end
  end.

(** [s.rfind(c)], [None] for -1. *)
Fixpoint rfind (c : ascii) (s : string) : option nat :=
  match s with
  | EmptyString => None
  | String d rest =>
      match rfind c rest with
      | Some i => Some (S i)
      | None => if Ascii.eqb d c then Some 0 else None
      end
  end.

(** [s[i:]] *)
Fixpoint drop (i : nat) (s : string) : string :=
  match i, s with
  | 0, _ => s
  | S k, String _ rest => drop k rest
  | S _, EmptyString => EmptyString
  end.

(** [s.endswith(suffix)] *)
Definition endswith (s suffix : string) : bool :=
  String.eqb (drop (String.length s - String.length suffix) s) suffix
  && (String.length suffix <=? String.length s).

(** [str(n)] for a natural number. *)
Definition of_nat (n : nat) : string :=
  NilZero.string_of_uint (Nat.to_uint n).

End PyStr.

(** The line feed of Python's ["\n"]. *)
Definition LF : string := String (ascii_of_nat 10) EmptyString.

(** ** Exceptions and outcomes *)

(** A raised Python exception: its class name, [str(e)], the stack
    frames [traceback] prints for it, and whether its class derives from
    [Exception] (as opposed to [KeyboardInterrupt], [SystemExit] and the
    other classes that derive from [BaseException] only). *)
Record exn : Type := MkExn {
  exc_class : string;
  exc_msg : string;
  exc_frames : string;
  exc_is_exception : bool
}.

(** An exception of a class that derives from [Exception]. *)
Definition Exn (class msg frames : string) : exn :=
  MkExn class msg frames true.

(** [traceback.format_exc()] while [e] is being handled; the last line
    is the class alone when [str(e)] is empty. *)
Definition format_exc (e : exn) : string :=
  "Traceback (most recent call last):" +:+ LF +:+ exc_frames e +:+
  (if String.eqb (exc_msg e) "" then exc_class e +:+ LF
   else exc_class e +:+ ": " +:+ exc_msg e +:+ LF).

(** The outcome of a call: it raises or it returns. *)
Inductive outcome (A : Type) : Type :=
| Raise (e : exn)
| Ok (a : A).
Arguments Raise {A} e.
Arguments Ok {A} a.

Definition obind {A B} (m : outcome A) (k : A -> outcome B) : outcome B :=
  match m with
  | Raise e => Raise e
  | Ok a => k a
  end.

#[global] Instance outcome_ret : MRet outcome := fun A a => Ok a.
#[global] Instance outcome_bind : MBind outcome :=
  fun A B k m => obind m k.

(** ** The external collaborators *)

(** A decoded raster page ([PIL.Image]); the number identifies it. *)
Inductive image : Type := Img (id : nat).

(** [pathlib.PurePosixPath]: the parts of a path are its components
    between slashes, empty ones and ["."] dropped; [name] is the last
    part and [suffix] what [name] carries from its last dot on, when that
    dot is neither its first nor its last character. *)
Module Path.

Definition parts (p : string) : list string :=
  filter (fun x => x <> "" /\ x <> ".") (PyStr.split "/" p).

Definition name (p : string) : string := List.last (parts p) "".

Definition suffix (p : string) : string :=
  let nm := name p in
  match PyStr.rfind "." nm with
  | Some i =>
      if (0 <? i) && (i <? String.length nm - 1) then PyStr.drop i nm else ""
  | None => ""
  end.

End Path.

(** [os.path.join(a, b)] of [posixpath] for two components. *)
Definition os_path_join (a b : string) : string :=
  if String.prefix "/" b then b
  else if String.eqb a "" || PyStr.endswith a "/" then a +:+ b
  else a +:+ "/" +:+ b.

(** The requests library.  [requests.get(url, stream=True, timeout=10)]
    sends one request; the network answers with a failure before any
    response (time-out included) or with a status line, the body being
    read afterwards by [response.content]. *)
Record request : Type := Request {
  req_method : string;
  req_url : string;
  req_stream : bool;
  req_timeout : Z
}.

Inductive net_reply : Type :=
| NetTimeout                                   (* requests.exceptions.Timeout *)
| NetFailure (e : exn)                         (* ConnectionError, InvalidURL, ... *)
| NetResponse (status : Z) (reason url : string)
              (body : outcome (list byte)).

(** A response: its status, the reason phrase of the status line, the
    URL it finally came from, and what reading its body gives. *)
Record response : Type := Response {
  status_code : Z;
  resp_reason : string;
  resp_url : string;
  content : outcome (list byte)
}.

(** [str(n)] for an integer. *)
Definition str_of_Z (n : Z) : string := NilZero.string_of_int (Z.to_int n).

Definition Timeout_exn : exn :=
  Exn "requests.exceptions.Timeout" "timed out" "".

Definition HTTPError (r : response) : exn :=
  Exn "requests.exceptions.HTTPError"
      (str_of_Z (status_code r) +:+
       (if (status_code r <? 500)%Z then " Client Error: "
        else " Server Error: ") +:+
       resp_reason r +:+ " for url: " +:+ resp_url r) "".

(** [Response.raise_for_status]: an [HTTPError] for a status from 400 to
    599, nothing otherwise. *)
Definition raise_for_status (r : response) : outcome unit :=
  if ((400 <=? status_code r) && (status_code r <? 600))%Z
  then Raise (HTTPError r)
  else Ok tt.

(** The engine [load_model] returns (model, processor and config
    together): what its sampler does at step [n] for a prompt and a page,
    and what [apply_chat_template] answers. *)
Inductive gen_step : Type :=
| GenToken (text : string)
| GenEos
| GenRaise (e : exn).

Record engine : Type := Engine {
  generate_step : string -> image -> nat -> gen_step;
  chat_template : string -> nat -> outcome string
}.

(** The document tree of docling_core, with the data model of the
    specification: typed elements in reading order, each with the index
    of the page it comes from. *)
Inductive element_kind : Type :=
| Paragraph | Heading | Table | TableCell | CodeBlock | Equation
| Figure | ListBlock | ListItem | PageBreak.

#[warnings="-register-all"]
Inductive DocumentElement : Type :=
| Element (kind : element_kind) (text : string)
          (children : list DocumentElement) (page_index : nat).

Record DocumentTree : Type := Tree {
  tree_name : string;
  tree_elements : list DocumentElement;
  tree_pages : list image
}.

Record World : Type := MkWorld {
  (* urllib.parse: the scheme of [urlparse(s)], or its ValueError *)
  w_urlparse_scheme : string -> outcome string;
  (* requests *)
  w_network : request -> net_reply;
  (* pdf2image and PIL on the bytes of a resource *)
  w_pdf_render : list byte -> outcome (list image);
  w_image_decode : list byte -> outcome image;
  (* mlx_vlm *)
  w_load_model : outcome engine;
  (* tempfile: the directory of [mkdtemp], the name of a temporary file
     without its suffix; [open(path, "wb")]; the decoding of a file's
     bytes with the encoding of the locale, as [open(path, "r")] does *)
  w_mkdtemp : outcome string;
  w_tmp_stem : gmap string (list byte) -> outcome string;
  w_open_wb : string -> outcome unit;
  w_locale_decode : list byte -> outcome string;
  (* docling_core *)
  w_assemble : list string -> list image -> outcome DocumentTree;
  w_export_to_markdown : DocumentTree -> outcome string;
  (* the bytes [save_as_html] writes to the file it is given *)
  w_save_as_html : DocumentTree -> outcome (list byte);
  w_export_json : DocumentTree -> outcome string
}.

(** ** [load_input_resource] *)

Definition PDF_MAGIC : list byte := [x25; x50; x44; x46].   (* b"%PDF" *)

Fixpoint bytes_eqb (a b : list byte) : bool :=
  match a, b with
  | [], [] => true
  | x :: a', y :: b' => Byte.eqb x y && bytes_eqb a' b'
  | _, _ => false
  end.

Definition requests_get (w : World) (url : string) : outcome response :=
  match w_network w (Request "GET" url true 10) with
  | NetTimeout => Raise Timeout_exn
  | NetFailure e => Raise e
  | NetResponse st why final body => Ok (Response st why final body)
  end.

Definition FileNotFoundError (p : string) : exn :=
  Exn "FileNotFoundError" ("[Errno 2] No such file or directory: " +:+ p) "".

Definition PDFPageCountError (p : string) : exn :=
  Exn "pdf2image.exceptions.PDFPageCountError"
      ("Unable to get page count. I/O Error: Couldn't open file " +:+ p) "".

(** [Image.open(file_path)] *)
Definition Image_open_path (w : World) (fs : gmap string (list byte))
    (p : string) : outcome image :=
  match fs !! p with
  | Some data => w_image_decode w data
  | None => Raise (FileNotFoundError p)
  end.

(** [convert_from_path(str(file_path))] *)
Definition convert_from_path (w : World) (fs : gmap string (list byte))
    (p : string) : outcome (list image) :=
  match fs !! p with
  | Some data => w_pdf_render w data
  | None => Raise (PDFPageCountError p)
  end.

(** The branch taken for a URL (lines 25 to 38). *)
Definition load_remote (w : World) (input_path : string)
    : outcome (list image) :=
  response ← requests_get w input_path;
  _ ← raise_for_status response;
  data ← content response;
  if bytes_eqb (take 4 data) PDF_MAGIC then
    pdf_images ← w_pdf_render w data;
    Ok ([] ++ pdf_images)
  else
    img ← w_image_decode w data;
    Ok ([] ++ [img]).

(** The branch taken for a local file (lines 41 to 47). *)
Definition load_local (w : World) (fs : gmap string (list byte))
    (input_path : string) : outcome (list image) :=
  if String.eqb (PyStr.lower (Path.suffix input_path)) ".pdf" then
    pdf_images ← convert_from_path w fs input_path;
    Ok ([] ++ pdf_images)
  else
    img ← Image_open_path w fs input_path;
    Ok ([] ++ [img]).

(** The test of line 24 on the scheme of the parsed reference. *)
Inductive origin : Type := RemoteURL | LocalPath.

Definition input_origin (scheme : string) : origin :=
  if negb (String.eqb scheme "") then RemoteURL else LocalPath.

Definition load_input_resource (w : World) (fs : gmap string (list byte))
    (input_path : string) : outcome (list image) :=
  scheme ← w_urlparse_scheme w input_path;
  match input_origin scheme with
  | RemoteURL => load_remote w input_path
  | LocalPath => load_local w fs input_path
  end.

(** ** The per-page streaming loop *)

(** What [stream_generate(..., max_tokens=n)] yields: the sampler's
    tokens one by one, until it signals the end, raises, or [n] tokens
    have been yielded. *)
Inductive token_stream : Type :=
| SEnd
| SRaise (e : exn)
| SYield (text : string) (rest : token_stream).

Fixpoint stream_from (step : nat -> gen_step) (n max_tokens : nat)
    : token_stream :=
  match max_tokens with
  | 0 => SEnd
  | S k =>
      match step n with
      | GenToken t => SYield t (stream_from step (S n) k)
      | GenEos => SEnd
      | GenRaise e => SRaise e
      end
  end.

Definition stream_generate (eng : engine) (formatted_prompt : string)
    (img : image) (max_tokens : nat) : token_stream :=
  stream_from (generate_step eng formatted_prompt img) 0 max_tokens.

Definition DOCTAG_END : string := "</doctag>".
Definition MAX_TOKENS : nat := 4096.

(** Lines 128 to 133: [for token in ...: output += token.text; if
    "</doctag>" in token.text: break].  The second component counts the
    tokens drawn from the generator. *)
Fixpoint consume (s : token_stream) (output : string) (drawn : nat)
    : outcome (string * nat) :=
  match s with
  | SEnd => Ok (output, drawn)
  | SRaise e => Raise e
  | SYield text rest =>
      let output := output +:+ text in
      if PyStr.contains DOCTAG_END text then Ok (output, S drawn)
      else consume rest output (S drawn)
  end.

(** The output of one page and the number of tokens it took. *)
Definition generate_page (eng : engine) (formatted_prompt : string)
    (img : image) : outcome (string * nat) :=
  consume (stream_generate eng formatted_prompt img MAX_TOKENS) "" 0.

(** The variables of the loop of lines 117 to 136.  [engine_calls] is not
    a variable of the program: it records each call of [stream_generate],
    with the page it was given and the number of tokens drawn. *)
Record loop_state : Type := LoopState {
  all_outputs : list string;
  all_images : list image;
  processing_log : string;
  engine_calls : list (image * nat)
}.

Definition loop_init : loop_state := LoopState [] [] "" [].

(** One iteration, for page [i] of [n]. *)
Definition page_step (eng : engine) (formatted_prompt : string) (n : nat)
    (st : loop_state) (i : nat) (img : image) : outcome loop_state :=
  let log := processing_log st +:+ "Processing page " +:+ PyStr.of_nat (i + 1)
             +:+ "/" +:+ PyStr.of_nat n +:+ "..." +:+ LF +:+ LF in
  let log := log +:+ "DocTags:" +:+ LF +:+ LF in
  let imgs := all_images st ++ [img] in
  r ← generate_page eng formatted_prompt img;
  Ok (LoopState (all_outputs st ++ [r.1]) imgs
                (log +:+ r.1 +:+ LF +:+ LF)
                (engine_calls st ++ [(img, r.2)])).

(** [for i, image in enumerate(images)], from index [i] on. *)
Fixpoint run_pages_from (eng : engine) (formatted_prompt : string) (n : nat)
    (st : loop_state) (i : nat) (images : list image) : outcome loop_state :=
  match images with
  | [] => Ok st
  | img :: rest =>
      st' ← page_step eng formatted_prompt n st i img;
      run_pages_from eng formatted_prompt n st' (S i) rest
  end.

Definition run_pages (eng : engine) (formatted_prompt : string)
    (images : list image) : outcome loop_state :=
  run_pages_from eng formatted_prompt (length images) loop_init 0 images.

(** The texts a stream yields, in order, and their concatenation. *)
Fixpoint stream_texts (s : token_stream) : list string :=
  match s with
  | SYield t rest => t :: stream_texts rest
  | SEnd | SRaise _ => []
  end.

Definition join_texts (l : list string) : string :=
  foldr String.append "" l.

(** A page on which the engine goes on to the bound: at every step below
    [MAX_TOKENS] it yields a token, and none of them holds the
    terminator. *)
Definition never_terminates (eng : engine) (formatted_prompt : string)
    (img : image) : Prop :=
  forall n, n < MAX_TOKENS ->
    exists t, generate_step eng formatted_prompt img n = GenToken t /\
              PyStr.contains DOCTAG_END t = false.

(** All the text the generator yields for a page under the bound. *)
Definition capped_output (eng : engine) (formatted_prompt : string)
    (img : image) : string :=
  join_texts (stream_texts (stream_generate eng formatted_prompt img MAX_TOKENS)).

(** A call that returns. *)
Definition is_Ok {A} (m : outcome A) : Prop := exists a, m = Ok a.

(** ** Calls with an effect on the file system *)

Definition io (A : Type) : Type :=
  gmap string (list byte) -> gmap string (list byte) * outcome A.

Definition io_ret {A} (a : A) : io A := fun fs => (fs, Ok a).

Definition io_bind {A B} (m : io A) (k : A -> io B) : io B :=
  fun fs =>
    match m fs with
    | (fs', Raise e) => (fs', Raise e)
    | (fs', Ok a) => k a fs'
    end.

Definition io_lift {A} (o : outcome A) : io A := fun fs => (fs, o).

Definition io_write (path : string) (data : list byte) : io unit :=
  fun fs => (<[path := data]> fs, Ok tt).

Definition io_read (path : string) : io (list byte) :=
  fun fs =>
    (fs, match fs !! path with
         | Some data => Ok data
         | None => Raise (FileNotFoundError path)
         end).

Notation "x <~ m ; k" := (io_bind m (fun x => k))
  (at level 20, m at level 100, k at level 200, only parsing).

(** [tempfile.NamedTemporaryFile(suffix=ext, delete=False)]: a new, empty
    file whose name ends with [ext]. *)
Definition NamedTemporaryFile (w : World) (ext : string) : io string :=
  stem <~ (fun fs => (fs, w_tmp_stem w fs));
  created <~ io_write (stem +:+ ext) [];
  io_ret (stem +:+ ext).

(** ** [process_document] *)

(** What Gradio hands over as [file_obj] (when it is not [None]): an
    object with a [read] method and perhaps a [name], a path given as a
    [str], an object with only a [name], or an object with neither. *)
Inductive upload : Type :=
| FileLike (name : option string) (data : outcome (list byte))
| FilePath (path : string)
| NamedObj (name : string)
| OtherObj.

Definition AttributeError : exn :=
  Exn "AttributeError" "object has no attribute 'name'" "".

(** Lines 80 to 101: the path of the uploaded file. *)
Definition save_upload (w : World) (file_obj : upload) : io string :=
  temp_dir <~ io_lift (w_mkdtemp w);
  let file_name :=
    match file_obj with
    | FileLike (Some n) _ => n
    | NamedObj n => n
    | _ => "uploaded_file"
    end in
  let temp_path := os_path_join temp_dir file_name in
  match file_obj with
  | FileLike _ data =>
      opened <~ io_lift (w_open_wb w temp_path);
      created <~ io_write temp_path [];
      bytes <~ io_lift data;
      written <~ io_write temp_path bytes;
      io_ret temp_path
  | FilePath p => io_ret p
  | NamedObj n => io_ret n
  | OtherObj => io_lift (Raise AttributeError)
  end.

(** The carriage return and the line feed. *)
Definition CR_char : ascii := ascii_of_nat 13.
Definition LF_char : ascii := ascii_of_nat 10.

(** The universal newlines of a file read in text mode: a carriage return
    followed by a line feed, and a carriage return alone, come back as one
    line feed. *)
Fixpoint universal_newlines (s : string) : string :=
  match s with
  | EmptyString => EmptyString
  | String c rest =>
      if Ascii.eqb c CR_char then
        match rest with
        | String d rest' =>
            if Ascii.eqb d LF_char then String LF_char (universal_newlines rest')
            else String LF_char (universal_newlines rest)
        | EmptyString => String LF_char EmptyString
        end
      else String c (universal_newlines rest)
  end.

(** [f.read()] of a file opened with [open(path, "r")] on the bytes of
    the file: decoded with the encoding of the locale, line ends
    translated. *)
Definition read_text (w : World) (data : list byte) : outcome string :=
  text ← w_locale_decode w data;
  Ok (universal_newlines text).

(** Lines 143 to 156: the export step. *)
Definition export_step (w : World) (doc : DocumentTree)
    (export_format : string) : io string :=
  if String.eqb export_format "Markdown" then
    io_lift (w_export_to_markdown w doc)
  else if String.eqb export_format "HTML" then
    html_path <~ NamedTemporaryFile w ".html";
    html <~ io_lift (w_save_as_html w doc);
    saved <~ io_write html_path html;
    data <~ io_read html_path;
    io_lift (read_text w data)
  else if String.eqb export_format "JSON" then
    io_lift (w_export_json w doc)
  else
    io_ret "Invalid export format selected".

Definition PROMPT : string := "Convert this page to docling.".

(** What [process_document] returns: the text for the output box, the
    preview image and the log. *)
Definition answer : Type := (string * option image * option string)%type.

(** Lines 107 to 159, once the input path is known. *)
Definition convert (w : World) (eng : engine) (input_path : string)
    (export_format : string) : io answer :=
  images <~ (fun fs => (fs, load_input_resource w fs input_path));
  match images with
  | [] =>
      io_ret ("No images could be extracted from the provided file or URL",
              None, None)
  | first :: _ =>
      formatted_prompt <~ io_lift (chat_template eng PROMPT 1);
      st <~ io_lift (run_pages eng formatted_prompt images);
      doc <~ io_lift (w_assemble w (all_outputs st) (all_images st));
      result <~ export_step w doc export_format;
      io_ret (result, Some first, Some (processing_log st))
  end.

(** The body of the [try] (lines 74 to 159). *)
Definition process_document_body (w : World) (file_obj : option upload)
    (url_input : string) (export_format : string) : io answer :=
  eng <~ io_lift (w_load_model w);
  match file_obj with
  | Some f =>
      input_path <~ save_upload w f;
      convert w eng input_path export_format
  | None =>
      if negb (String.eqb (PyStr.strip url_input) "") then
        convert w eng (PyStr.strip url_input) export_format
      else
        io_ret ("Please provide either a file upload or a URL", None, None)
  end.

(** The [except Exception] handler (lines 161 to 164). *)
Definition error_answer (e : exn) : answer :=
  ("Error processing document: " +:+ exc_msg e +:+ LF +:+ LF +:+ "Details:"
     +:+ LF +:+ format_exc e,
   None, Some (format_exc e)).

(** [except Exception as e]: an exception whose class derives from
    [Exception] is turned into the error answer, any other goes on to the
    caller. *)
Definition except_Exception (e : exn) : outcome answer :=
  if exc_is_exception e then Ok (error_answer e) else Raise e.

Definition process_document (w : World) (file_obj : option upload)
    (url_input : string) (export_format : string) : io answer :=
  fun fs =>
    match process_document_body w file_obj url_input export_format fs with
    | (fs', Ok r) => (fs', Ok r)
    | (fs', Raise e) => (fs', except_Exception e)
    end.

(** ** [prepare_download] *)

Definition UnicodeEncodeError : exn :=
  Exn "UnicodeEncodeError" "'utf-8' codec can't encode character: surrogates not allowed" "".

Definition byte_of_N (n : N) : byte :=
  match Byte.of_N n with
  | Some b => b
  | None => x00
  end.

(** A character of a [str] as its code point; the Unicode scalar values
    are the code points up to 0x10FFFF that are no surrogates. *)
Definition is_scalar (c : N) : bool :=
  ((c <? 0xD800) || (0xDFFF <? c))%N && (c <=? 0x10FFFF)%N.

(** [str.encode("utf-8")] for one character. *)
Definition utf8_char (c : N) : outcome (list byte) :=
  (if c <? 0x80 then Ok [byte_of_N c]
   else if c <? 0x800 then
     Ok [byte_of_N (N.lor 0xC0 (N.shiftr c 6));
         byte_of_N (N.lor 0x80 (N.land c 0x3F))]
   else if negb (is_scalar c) then Raise UnicodeEncodeError
   else if c <? 0x10000 then
     Ok [byte_of_N (N.lor 0xE0 (N.shiftr c 12));
         byte_of_N (N.lor 0x80 (N.land (N.shiftr c 6) 0x3F));
         byte_of_N (N.lor 0x80 (N.land c 0x3F))]
   else
     Ok [byte_of_N (N.lor 0xF0 (N.shiftr c 18));
         byte_of_N (N.lor 0x80 (N.land (N.shiftr c 12) 0x3F));
         byte_of_N (N.lor 0x80 (N.land (N.shiftr c 6) 0x3F));
         byte_of_N (N.lor 0x80 (N.land c 0x3F))])%N.

Fixpoint utf8_encode (s : list N) : outcome (list byte) :=
  match s with
  | [] => Ok []
  | c :: rest =>
      b ← utf8_char c;
      bs ← utf8_encode rest;
      Ok (b ++ bs)
  end.

(** Lines 187 to 194. *)
Definition download_ext (export_format : string) : string :=
  if String.eqb export_format "Markdown" then ".md"
  else if String.eqb export_format "HTML" then ".html"
  else if String.eqb export_format "JSON" then ".json"
  else ".txt".

(** Lines 196 to 200; the pair returned holds the values of the two
    [gr.update] objects. *)
Definition prepare_download (w : World) (result : list N)
    (export_format : string) : io (string * string) :=
  let ext := download_ext export_format in
  temp_file <~ NamedTemporaryFile w ext;
  data <~ io_lift (utf8_encode result);
  written <~ io_write temp_file data;
  io_ret (temp_file, temp_file).

(** ** The Document Assembler *)

Definition CountMismatch : exn := Exn "AssemblyError" "CountMismatch" "".


Definition page_break (i : nat) : DocumentElement :=
  Element PageBreak "" [] i.


Section Assembler.

(** The parser of one page's tagged text into its forest of elements,
    given the index of the page; the specification leaves the tag
    grammar open. *)
Variable parse_page : nat -> string -> outcome (list DocumentElement).

(** Modelled from the spec: the forests of the pages from index [i]
    on, each output parsed with its position as page index (section
    4.3, pairing by position). *)
Fixpoint parse_pages (i : nat) (outputs : list string)
    : outcome (list (list DocumentElement)) :=
  match outputs with
  | [] => Ok []
  | o :: rest =>
      forest ← parse_page i o;
      forests ← parse_pages (S i) rest;
      Ok (forest :: forests)
  end.

(** Modelled from the spec: the forests joined in page order, a
    page-break marker between two pages (section 4.3). *)
Fixpoint join_pages (i : nat) (forests : list (list DocumentElement))
    : list DocumentElement :=
  match forests with
  | [] => []
  | [forest] => forest
  | forest :: rest => forest ++ page_break i :: join_pages (S i) rest
  end.

(** Modelled from the spec: the Document Assembler, which the script
    takes from docling_core ([DocTagsDocument.from_doctags_and_image_pairs]
    followed by [DoclingDocument.load_from_doctags]) and which is not
    part of the repository's source.  Following sections 3 and 4.3 of the
    specification: a count mismatch is an error; each output is paired
    with the image at the same position and parsed; the forests are
    concatenated in page order with a page-break marker between pages. *)
Definition assemble (outputs : list string) (pages : list image)
    : outcome DocumentTree :=
  if length outputs =? length pages then
    forests ← parse_pages 0 outputs;
    Ok (Tree "ProcessedDocument" (join_pages 0 forests) pages)
  else Raise CountMismatch.

End Assembler.

(** ** Worlds for running the program *)

(** The scheme [urllib.parse.urlsplit] finds: leading control characters
    and blanks are stripped, tabs and line breaks removed; what stands
    before the first colon is the scheme when it starts with an ASCII
    letter and consists of letters, digits and [+-.] only. *)
Module Urllib.

Definition is_alpha (c : ascii) : bool :=
  let n := nat_of_ascii c in
  ((65 <=? n) && (n <=? 90)) || ((97 <=? n) && (n <=? 122)).

Definition is_scheme_char (c : ascii) : bool :=
  let n := nat_of_ascii c in
  is_alpha c || ((48 <=? n) && (n <=? 57))
  || (n =? 43) || (n =? 45) || (n =? 46).

Fixpoint lstrip_c0 (s : string) : string :=
  match s with
  | String c rest => if nat_of_ascii c <=? 32 then lstrip_c0 rest else s
  | EmptyString => EmptyString
  end.

Fixpoint remove_unsafe (s : string) : string :=
  match s with
  | EmptyString => EmptyString
  | String c rest =>
      let n := nat_of_ascii c in
      if (n =? 9) || (n =? 10) || (n =? 13) then remove_unsafe rest
      else String c (remove_unsafe rest)
  end.

(** The characters before the first colon, when there is one. *)
Fixpoint before_colon (s : string) : option string :=
  match s with
  | EmptyString => None
  | String c rest =>
      if Ascii.eqb c ":" then Some EmptyString
      else option_map (String c) (before_colon rest)
  end.

Fixpoint all_chars (p : ascii -> bool) (s : string) : bool :=
  match s with
  | EmptyString => true
  | String c rest => p c && all_chars p rest
  end.

Definition scheme (url : string) : string :=
  let url := remove_unsafe (lstrip_c0 url) in
  match before_colon url with
  | Some (String c rest as candidate) =>
      if is_alpha c && all_chars is_scheme_char candidate
      then PyStr.lower candidate else ""
  | _ => ""
  end.

(** The scheme and what follows it. *)
Definition split_scheme (url : string) : string * string :=
  let url := remove_unsafe (lstrip_c0 url) in
  match before_colon url with
  | Some (String c rest as candidate) =>
      if is_alpha c && all_chars is_scheme_char candidate
      then (PyStr.lower candidate, PyStr.drop (S (String.length candidate)) url)
      else ("", url)
  | _ => ("", url)
  end.

(** The network location: what follows two slashes, up to the first of
    the characters [/], [?] and [#]. *)
Fixpoint netloc_of (s : string) : string :=
  match s with
  | EmptyString => EmptyString
  | String c rest =>
      if Ascii.eqb c "/" || Ascii.eqb c "?" || Ascii.eqb c "#"
      then EmptyString else String c (netloc_of rest)
  end.

Fixpoint has_char (c : ascii) (s : string) : bool :=
  match s with
  | EmptyString => false
  | String d rest => Ascii.eqb d c || has_char c rest
  end.

Definition Invalid_IPv6_URL : exn := Exn "ValueError" "Invalid IPv6 URL" "".

(** The scheme of [urlparse(url)], or the [ValueError] of [urlsplit] for
    a network location with one square bracket and not the other.  The
    checks [urlsplit] makes on a host between two brackets and on a host
    with characters outside ASCII are left out. *)
Definition urlparse_scheme (url : string) : outcome string :=
  let parts := split_scheme url in
  if String.prefix "//" parts.2 then
    let netloc := netloc_of (PyStr.drop 2 parts.2) in
    if (has_char "[" netloc && negb (has_char "]" netloc))
       || (has_char "]" netloc && negb (has_char "[" netloc))
    then Raise Invalid_IPv6_URL
    else Ok parts.1
  else Ok parts.1.

End Urllib.

Module Demo.

(** A two-page PDF and a PNG file, by their first bytes. *)
Definition pdf_bytes : list byte :=
  [x25; x50; x44; x46; x2d; x31; x2e; x37; x0a].
Definition png_bytes : list byte :=
  [x89; x50; x4e; x47; x0d; x0a; x1a; x0a].

Definition UnidentifiedImageError : exn :=
  Exn "PIL.UnidentifiedImageError" "cannot identify image file" "".
Definition PDFSyntaxError : exn :=
  Exn "pdf2image.exceptions.PDFPageCountError" "Unable to get page count." "".

(** pdf2image renders what starts like a PDF (two pages here) and
    rejects the rest; PIL decodes what is not a PDF. *)
Definition pdf_render (data : list byte) : outcome (list image) :=
  if bytes_eqb (take 4 data) PDF_MAGIC then Ok [Img 0; Img 1]
  else Raise PDFSyntaxError.

Definition image_decode (data : list byte) : outcome image :=
  if bytes_eqb (take 4 data) PDF_MAGIC then Raise UnidentifiedImageError
  else Ok (Img 7).

(** A parser for the assembler: one paragraph per page, holding the
    page's text. *)
Definition parse_page (i : nat) (o : string)
    : outcome (list DocumentElement) :=
  Ok [Element Paragraph o [] i].

(** An engine that answers each page with a short tagged text in three
    tokens and then stops. *)
Definition hello_step (prompt : string) (img : image) (n : nat) : gen_step :=
  match n with
  | 0 => GenToken "<doctag>"
  | 1 => GenToken "Hello"
  | 2 => GenToken "</doctag>"
  | _ => GenToken "junk"
  end.

Definition hello_engine : engine :=
  Engine hello_step (fun prompt n => Ok prompt).

(** An engine whose closing tag arrives in two tokens, followed by one
    more token before the end. *)
Definition split_step (prompt : string) (img : image) (n : nat) : gen_step :=
  match n with
  | 0 => GenToken "<doctag>Hi</doc"
  | 1 => GenToken "tag>"
  | 2 => GenToken "junk"
  | _ => GenEos
  end.

Definition split_engine : engine :=
  Engine split_step (fun prompt n => Ok prompt).

(** An engine that never closes page 0 and answers every other page
    like [hello_engine]. *)
Definition runaway_step (prompt : string) (img : image) (n : nat)
    : gen_step :=
  match img with
  | Img 0 => GenToken "x"
  | _ => hello_step prompt img n
  end.

Definition runaway_engine : engine :=
  Engine runaway_step (fun prompt n => Ok prompt).

(** A network on which every host answers with [status] and [body]. *)
Definition world (status : Z) (body : list byte) (eng : outcome engine)
    : World :=
  MkWorld Urllib.urlparse_scheme
          (fun req => NetResponse status "" (req_url req) (Ok body))
          pdf_render image_decode
          eng
          (Ok "/tmp/tmpd1")
          (fun fs => Ok "/tmp/tmpf1")
          (fun p => Ok tt)
          (fun data => Ok (string_of_list_byte data))
          (assemble parse_page)
          (fun doc => Ok "Hello")
          (fun doc => Ok (list_byte_of_string "<html>Hello</html>"))
          (fun doc => Ok "{}").

Definition w200 : World := world 200 pdf_bytes (Ok hello_engine).

(** A machine on which the model cannot be loaded. *)
Definition load_failure : exn :=
  Exn "RuntimeError" "no Metal device available"
      "  File main.py, line 59, in load_model".

Definition w_no_model : World := world 200 pdf_bytes (Raise load_failure).

(** A file system with a PDF named [report.png] and a PNG named
    [scan.pdf]. *)
Definition fs0 : gmap string (list byte) :=
  <["report.png" := pdf_bytes]> (<["scan.pdf" := png_bytes]> ∅).

End Demo.

(** ** [render_output] *)






(** ** Auxiliary notions for the statements *)

(** What the iteration for page [i] of [n] adds to the log, given the
    page's output (lines 122, 123 and 136). *)
Definition page_log (n i : nat) (output : string) : string :=
  "Processing page " +:+ PyStr.of_nat (i + 1) +:+ "/" +:+ PyStr.of_nat n
  +:+ "..." +:+ LF +:+ LF +:+ "DocTags:" +:+ LF +:+ LF +:+ output +:+ LF +:+ LF.

(** The log entries of the pages from index [i] on. *)
Fixpoint pages_log (n i : nat) (outputs : list string) : string :=
  match outputs with
  | [] => ""
  | o :: rest => page_log n i o +:+ pages_log n (S i) rest
  end.

(** A text that does not begin with a blank. *)
Definition no_leading_blank (s : string) : Prop :=
  match s with
  | EmptyString => True
  | String c _ => PyStr.isspace c = false
  end.

(** A text without the character [c]. *)
Fixpoint lacks (c : ascii) (s : string) : Prop :=
  match s with
  | EmptyString => True
  | String d rest => d <> c /\ lacks c rest
  end.

(** ** Where exceptions come from *)

(** An exception the handler of [process_document] catches. *)
Definition caught (e : exn) : Prop := exc_is_exception e = true.

(** A call that raises nothing but exceptions of classes deriving from
    [Exception]. *)
Definition raises_caught {A} (m : outcome A) : Prop :=
  forall e, m = Raise e -> caught e.

Definition engine_raises_caught (eng : engine) : Prop :=
  (forall p img n e, generate_step eng p img n = GenRaise e -> caught e) /\
  (forall p n, raises_caught (chat_template eng p n)).

(** A world in which the libraries raise exceptions of classes deriving
    from [Exception] only: no interrupt from the keyboard, no exit. *)
Record world_raises_caught (w : World) : Prop := {
  rc_urlparse : forall s, raises_caught (w_urlparse_scheme w s);
  rc_network : forall req,
    match w_network w req with
    | NetTimeout => True
    | NetFailure e => caught e
    | NetResponse _ _ _ body => raises_caught body
    end;
  rc_pdf_render : forall d, raises_caught (w_pdf_render w d);
  rc_image_decode : forall d, raises_caught (w_image_decode w d);
  rc_load_model : raises_caught (w_load_model w);
  rc_engine : forall eng, w_load_model w = Ok eng -> engine_raises_caught eng;
  rc_mkdtemp : raises_caught (w_mkdtemp w);
  rc_tmp_stem : forall fs, raises_caught (w_tmp_stem w fs);
  rc_open_wb : forall path, raises_caught (w_open_wb w path);
  rc_locale_decode : forall d, raises_caught (w_locale_decode w d);
  rc_assemble : forall o i, raises_caught (w_assemble w o i);
  rc_markdown : forall d, raises_caught (w_export_to_markdown w d);
  rc_html : forall d, raises_caught (w_save_as_html w d);
  rc_json : forall d, raises_caught (w_export_json w d)
}.

(** An upload whose [read] raises such exceptions only. *)
Definition upload_raises_caught (file_obj : option upload) : Prop :=
  match file_obj with
  | Some (FileLike _ data) => raises_caught data
  | _ => True
  end.

(** A call with effects on the files that raises such exceptions only. *)
Definition io_raises_caught {A} (m : io A) : Prop :=
  forall fs, raises_caught (m fs).2.

(** ** More worlds and engines *)

Module Samples.

(** A world like [Demo.w200] in which the PDF renderer finds no page. *)
Definition w_empty_pdf : World :=
  MkWorld Urllib.urlparse_scheme
          (fun req => NetResponse 200 "OK" (req_url req) (Ok Demo.pdf_bytes))
          (fun data => Ok []) Demo.image_decode
          (Ok Demo.hello_engine)
          (Ok "/tmp/tmpd1")
          (fun fs => Ok "/tmp/tmpf1")
          (fun p => Ok tt)
          (fun data => Ok (string_of_list_byte data))
          (assemble Demo.parse_page)
          (fun doc => Ok "Hello")
          (fun doc => Ok (list_byte_of_string "<html>Hello</html>"))
          (fun doc => Ok "{}").

Definition out_of_memory : exn :=
  Exn "RuntimeError" "out of memory" "  File main.py, line 128".

(** An engine that fails at the second step of page 1 and answers the
    other pages like [Demo.hello_engine]. *)
Definition faulty_step (prompt : string) (img : image) (n : nat) : gen_step :=
  match img, n with
  | Img 1, 1 => GenRaise out_of_memory
  | _, _ => Demo.hello_step prompt img n
  end.

Definition faulty_engine : engine :=
  Engine faulty_step (fun prompt n => Ok prompt).

(** An engine that agrees with [Demo.hello_engine] up to the closing tag
    and fails afterwards. *)
Definition fragile_step (prompt : string) (img : image) (n : nat) : gen_step :=
  if n <=? 2 then Demo.hello_step prompt img n else GenRaise out_of_memory.

Definition fragile_engine : engine :=
  Engine fragile_step (fun prompt n => Ok prompt).

(** The interrupt of the keyboard, whose class derives from
    [BaseException] only. *)
Definition keyboard_interrupt : exn :=
  MkExn "KeyboardInterrupt" "" "  File main.py, line 128" false.

(** An engine that is interrupted at the second step of every page. *)
Definition interrupted_step (prompt : string) (img : image) (n : nat)
    : gen_step :=
  match n with
  | 1 => GenRaise keyboard_interrupt
  | _ => Demo.hello_step prompt img n
  end.

Definition interrupted_engine : engine :=
  Engine interrupted_step (fun prompt n => Ok prompt).

Definition w_interrupted : World :=
  Demo.world 200 Demo.pdf_bytes (Ok interrupted_engine).

End Samples.

(** * Properties *)

(** ** The model on concrete inputs *)

Example contains_ex1 : PyStr.contains "</doctag>" "abc</doctag>x" = true.
Proof. reflexivity. Qed.

Example strip_ex1 : PyStr.strip ("  a b" +:+ LF) = "a b".
Proof. reflexivity. Qed.

Example split_ex1 : PyStr.split "/" "a/b.pdf/" = ["a"; "b.pdf"; ""].
Proof. reflexivity. Qed.

Example of_nat_ex1 : PyStr.of_nat 12 = "12".
Proof. reflexivity. Qed.

Example endswith_ex1 : PyStr.endswith "/tmp/x.md" ".md" = true.
Proof. reflexivity. Qed.

Example suffix_ex1 : Path.suffix "/tmp/up/Report.PDF" = ".PDF".
Proof. vm_compute. reflexivity. Qed.

Example suffix_ex2 : Path.suffix "a/.bashrc" = "".
Proof. vm_compute. reflexivity. Qed.

Example suffix_ex3 : Path.suffix "a/b.pdf/" = ".pdf".
Proof. vm_compute. reflexivity. Qed.

Example suffix_ex4 : Path.suffix "a/b." = "".
Proof. vm_compute. reflexivity. Qed.

Example join_ex1 : os_path_join "/tmp/abc" "x.png" = "/tmp/abc/x.png".
Proof. reflexivity. Qed.

Example utf8_ex1 : utf8_encode [0x48; 0xE9; 0x20AC; 0x1F600]%N
  = Ok [x48; xc3; xa9; xe2; x82; xac; xf0; x9f; x98; x80].
Proof. reflexivity. Qed.

Example utf8_ex2 : utf8_encode [0x48; 0xD800]%N = Raise UnicodeEncodeError.
Proof. reflexivity. Qed.

Example scheme_ex1 : Urllib.scheme "https://example.org/a.pdf" = "https".
Proof. reflexivity. Qed.

Example scheme_ex2 : Urllib.scheme "/home/me/report.png" = "".
Proof. reflexivity. Qed.

Example scheme_ex3 : Urllib.scheme "report.png" = "".
Proof. reflexivity. Qed.

Example urlparse_ex1 :
  Urllib.urlparse_scheme "HTTPS://example.org/a.pdf" = Ok "https".
Proof. reflexivity. Qed.

Example urlparse_ex2 : Urllib.urlparse_scheme "/home/me/report.png" = Ok "".
Proof. reflexivity. Qed.

Example urlparse_ex3 :
  Urllib.urlparse_scheme "http://[h/a.png" = Raise Urllib.Invalid_IPv6_URL.
Proof. reflexivity. Qed.

Example universal_newlines_ex :
  universal_newlines ("a" +:+ String CR_char (String LF_char "b")
                      +:+ String CR_char "c")
    = "a" +:+ String LF_char "b" +:+ String LF_char "c".
Proof. reflexivity. Qed.

Example demo_run_ex : (process_document Demo.w200 None "http://h/report.png" "Markdown" ∅).2
   = Ok ("Hello", Some (Img 0), Some (
      "Processing page 1/2..." +:+ LF +:+ LF +:+ "DocTags:" +:+ LF +:+ LF +:+
      "<doctag>Hello</doctag>" +:+ LF +:+ LF +:+
      "Processing page 2/2..." +:+ LF +:+ LF +:+ "DocTags:" +:+ LF +:+ LF +:+
      "<doctag>Hello</doctag>" +:+ LF +:+ LF)).
Proof. vm_compute. reflexivity. Qed.


(** ** Outcomes *)

Lemma bind_Ok {A B} (a : A) (k : A -> outcome B) : (Ok a ≫= k) = k a.
Proof. reflexivity. Qed.

Lemma bind_Raise {A B} (e : exn) (k : A -> outcome B) :
  (Raise e ≫= k) = Raise e.
Proof. reflexivity. Qed.

Lemma bind_Ok_inv {A B} (m : outcome A) (k : A -> outcome B) (b : B) :
  (m ≫= k) = Ok b -> exists a, m = Ok a /\ k a = Ok b.
Proof. destruct m as [e|a]; [discriminate | eauto]. Qed.

Lemma bytes_eqb_eq (a b : list byte) : bytes_eqb a b = true <-> a = b.
Proof.
  revert b; induction a as [|x a IH]; intros [|y b]; simpl; split;
    try congruence; try discriminate.
  - intros [Hxy Hab]%andb_prop. apply Byte.byte_dec_bl in Hxy.
    apply IH in Hab. congruence.
  - intros [= -> ->]. apply andb_true_intro; split.
    + apply Byte.byte_dec_lb; reflexivity.
    + apply IH; reflexivity.
Qed.

Lemma bytes_eqb_neq (a b : list byte) : bytes_eqb a b = false <-> a <> b.
Proof.
  rewrite <- bytes_eqb_eq. destruct (bytes_eqb a b); split; congruence.
Qed.

(** ** The Resource Loader *)

Lemma load_scheme_remote w fs ref scheme :
  w_urlparse_scheme w ref = Ok scheme -> scheme <> "" ->
  load_input_resource w fs ref = load_remote w ref.
Proof.
  intros Hp Hne. unfold load_input_resource, input_origin.
  rewrite Hp, bind_Ok.
  destruct (String.eqb_spec scheme ""); [contradiction | reflexivity].
Qed.

Lemma load_scheme_local w fs ref :
  w_urlparse_scheme w ref = Ok "" ->
  load_input_resource w fs ref = load_local w fs ref.
Proof.
  intros Hp. unfold load_input_resource. rewrite Hp, bind_Ok. reflexivity.
Qed.

(** What the remote branch does with a body that was received. *)
Lemma load_remote_body w url st why final data :
  w_network w (Request "GET" url true 10)
    = NetResponse st why final (Ok data) ->
  ~ (400 <= st < 600)%Z ->
  load_remote w url =
    if bytes_eqb (take 4 data) PDF_MAGIC
    then pdf_images ← w_pdf_render w data; Ok pdf_images
    else img ← w_image_decode w data; Ok [img].
Proof.
  intros Hnet Hst. unfold load_remote, requests_get. rewrite Hnet, bind_Ok.
  unfold raise_for_status; simpl status_code.
  destruct (400 <=? st)%Z eqn:H1; destruct (st <? 600)%Z eqn:H2; simpl;
    try reflexivity.
  exfalso; apply Hst; lia.
Qed.

Lemma load_local_file w fs p data :
  fs !! p = Some data ->
  load_local w fs p =
    if String.eqb (PyStr.lower (Path.suffix p)) ".pdf"
    then pdf_images ← w_pdf_render w data; Ok pdf_images
    else img ← w_image_decode w data; Ok [img].
Proof.
  intros Hf. unfold load_local, convert_from_path, Image_open_path.
  rewrite Hf. reflexivity.
Qed.

(** C8, as the code has it: a reference that [urlparse] parses is a
    remote URL when the scheme of the parse is not empty and a local path
    when it is empty, and is fetched or opened accordingly; a reference on
    which [urlparse] raises is neither: the load raises that exception,
    and nothing is fetched or opened. *)
Theorem C8_origin_by_scheme (w : World) (fs : gmap string (list byte))
    (ref : string) :
  (forall scheme,
     w_urlparse_scheme w ref = Ok scheme ->
     (scheme <> "" -> load_input_resource w fs ref = load_remote w ref) /\
     (scheme = "" -> load_input_resource w fs ref = load_local w fs ref)) /\
  (forall e,
     w_urlparse_scheme w ref = Raise e ->
     load_input_resource w fs ref = Raise e).
Proof.
  split.
  - intros scheme Hp. split.
    + intros Hne. exact (load_scheme_remote _ _ _ _ Hp Hne).
    + intros ->. exact (load_scheme_local _ _ _ Hp).
  - intros e Hp. unfold load_input_resource. now rewrite Hp.
Qed.

Lemma C8_origin_by_scheme_witness :
  w_urlparse_scheme Demo.w200 "https://example.org/a.pdf" = Ok "https" /\
  "https" <> "" /\
  load_input_resource Demo.w200 Demo.fs0 "https://example.org/a.pdf"
    = load_remote Demo.w200 "https://example.org/a.pdf".
Proof.
  assert (Hne : "https" <> "") by discriminate.
  split; [reflexivity |]. split; [exact Hne |].
  destruct (C8_origin_by_scheme Demo.w200 Demo.fs0
              "https://example.org/a.pdf") as [H _].
  exact (proj1 (H "https" eq_refl) Hne).
Defined.

(** C8 fails for a reference that [urlparse] does not parse: with one
    square bracket in the network location, with a scheme or without
    one, the load raises the [ValueError] of [urlparse]; the reference is
    treated neither as a URL nor as a local path. *)
Lemma C8_unparsed_reference_counterexample :
  w_urlparse_scheme Demo.w200 "//[h/a.png" = Raise Urllib.Invalid_IPv6_URL /\
  load_input_resource Demo.w200 Demo.fs0 "//[h/a.png"
    = Raise Urllib.Invalid_IPv6_URL /\
  load_local Demo.w200 Demo.fs0 "//[h/a.png"
    = Raise (FileNotFoundError "//[h/a.png") /\
  load_input_resource Demo.w200 Demo.fs0 "//[h/a.png"
    <> load_local Demo.w200 Demo.fs0 "//[h/a.png" /\
  load_input_resource Demo.w200 Demo.fs0 "http://[h/a.png"
    = Raise Urllib.Invalid_IPv6_URL /\
  load_remote Demo.w200 "http://[h/a.png" = Ok [Img 0; Img 1] /\
  load_input_resource Demo.w200 Demo.fs0 "http://[h/a.png"
    <> load_remote Demo.w200 "http://[h/a.png".
Proof.
  repeat (split; [first [by vm_compute | vm_compute; discriminate] |]).
  vm_compute; discriminate.
Qed.

(** C1, as the code has it: for a remote reference the first four bytes
    of the body decide (the signature of a PDF gives the rendering of its
    pages, anything else one decoded image, whatever the URL is named);
    for a local path the lower-cased suffix of the file name decides
    ([.pdf] gives the rendering of the file, anything else one decoded
    image, whatever the file starts with). *)
Theorem C1_detection_remote_signature_local_suffix (w : World)
    (fs : gmap string (list byte)) (ref scheme : string) :
  w_urlparse_scheme w ref = Ok scheme ->
  (scheme <> "" ->
   forall st why final data,
     w_network w (Request "GET" ref true 10)
       = NetResponse st why final (Ok data) ->
     ~ (400 <= st < 600)%Z ->
     (take 4 data = PDF_MAGIC ->
      load_input_resource w fs ref = (pdf ← w_pdf_render w data; Ok pdf)) /\
     (take 4 data <> PDF_MAGIC ->
      load_input_resource w fs ref = (img ← w_image_decode w data; Ok [img])))
  /\
  (scheme = "" ->
   forall data,
     fs !! ref = Some data ->
     (PyStr.lower (Path.suffix ref) = ".pdf" ->
      load_input_resource w fs ref = (pdf ← w_pdf_render w data; Ok pdf)) /\
     (PyStr.lower (Path.suffix ref) <> ".pdf" ->
      load_input_resource w fs ref = (img ← w_image_decode w data; Ok [img]))).
Proof.
  intros Hp. split.
  - intros Hne st why final data Hnet Hst.
    rewrite (load_scheme_remote _ _ _ _ Hp Hne).
    rewrite (load_remote_body _ _ _ _ _ _ Hnet Hst).
    split; intros Hm.
    + apply bytes_eqb_eq in Hm. rewrite Hm. reflexivity.
    + apply bytes_eqb_neq in Hm. rewrite Hm. reflexivity.
  - intros -> data Hf.
    rewrite (load_scheme_local _ _ _ Hp), (load_local_file _ _ _ _ Hf).
    split; intros Hs.
    + rewrite Hs. reflexivity.
    + destruct (String.eqb_spec (PyStr.lower (Path.suffix ref)) ".pdf");
        [contradiction | reflexivity].
Qed.

Lemma C1_detection_witness :
  w_urlparse_scheme Demo.w200 "http://h/report.png" = Ok "http" /\
  "http" <> "" /\
  w_network Demo.w200 (Request "GET" "http://h/report.png" true 10)
    = NetResponse 200 "" "http://h/report.png" (Ok Demo.pdf_bytes) /\
  ~ (400 <= 200 < 600)%Z /\
  take 4 Demo.pdf_bytes = PDF_MAGIC /\
  load_input_resource Demo.w200 Demo.fs0 "http://h/report.png"
    = Ok [Img 0; Img 1].
Proof.
  assert (H200 : ~ (400 <= 200 < 600)%Z) by lia.
  assert (Hne : "http" <> "") by discriminate.
  repeat (split; [first [reflexivity | assumption] |]).
  destruct (C1_detection_remote_signature_local_suffix Demo.w200 Demo.fs0
              "http://h/report.png" "http" eq_refl) as [Hr _].
  destruct (Hr Hne 200%Z "" "http://h/report.png" Demo.pdf_bytes eq_refl H200)
    as [Hpdf _].
  rewrite (Hpdf eq_refl). reflexivity.
Defined.

(** C1 fails on a local path: the file [report.png] that starts with
    [%PDF] is opened as one image (which PIL rejects) and its pages are not
    rendered; the file [scan.pdf] that holds a PNG is handed to the PDF
    renderer. *)
Lemma C1_local_counterexample :
  w_urlparse_scheme Demo.w200 "report.png" = Ok "" /\
  Demo.fs0 !! "report.png" = Some Demo.pdf_bytes /\
  take 4 Demo.pdf_bytes = PDF_MAGIC /\
  w_pdf_render Demo.w200 Demo.pdf_bytes = Ok [Img 0; Img 1] /\
  load_input_resource Demo.w200 Demo.fs0 "report.png"
    = Raise Demo.UnidentifiedImageError /\
  Demo.fs0 !! "scan.pdf" = Some Demo.png_bytes /\
  take 4 Demo.png_bytes <> PDF_MAGIC /\
  w_image_decode Demo.w200 Demo.png_bytes = Ok (Img 7) /\
  load_input_resource Demo.w200 Demo.fs0 "scan.pdf"
    = w_pdf_render Demo.w200 Demo.png_bytes /\
  load_input_resource Demo.w200 Demo.fs0 "scan.pdf" <> Ok [Img 7].
Proof.
  repeat (split; [first [by vm_compute | discriminate] |]).
  by vm_compute.
Qed.

(** ** The remote fetch *)

Lemma raise_for_status_error st why final body :
  (400 <= st < 600)%Z ->
  raise_for_status (Response st why final body)
    = Raise (HTTPError (Response st why final body)).
Proof.
  intros [H1 H2]. unfold raise_for_status; simpl.
  apply Z.leb_le in H1. apply Z.ltb_lt in H2. rewrite H1, H2. reflexivity.
Qed.

Lemma raise_for_status_pass st why final body :
  ~ (400 <= st < 600)%Z ->
  raise_for_status (Response st why final body) = Ok tt.
Proof.
  intros Hst. unfold raise_for_status; simpl.
  destruct (400 <=? st)%Z eqn:H1; destruct (st <? 600)%Z eqn:H2;
    try reflexivity.
  exfalso; apply Hst; lia.
Qed.

(** C7, as the code has it: a remote reference is fetched by one GET
    request with [stream=True] and [timeout=10]; the load raises when the
    request times out or fails, and when the status is one that
    [raise_for_status] rejects, from 400 to 599, the body not being read;
    with any other status, the 3xx ones included, the body is read and
    decoded. *)
Theorem C7_fetch_raises_on_timeout_and_error_status (w : World)
    (fs : gmap string (list byte)) (url scheme : string) :
  w_urlparse_scheme w url = Ok scheme -> scheme <> "" ->
  match w_network w (Request "GET" url true 10) with
  | NetTimeout => load_input_resource w fs url = Raise Timeout_exn
  | NetFailure e => load_input_resource w fs url = Raise e
  | NetResponse st why final body =>
      ((400 <= st < 600)%Z ->
       load_input_resource w fs url
         = Raise (HTTPError (Response st why final body))) /\
      (~ (400 <= st < 600)%Z ->
       load_input_resource w fs url =
         (data ← body;
          if bytes_eqb (take 4 data) PDF_MAGIC
          then pdf ← w_pdf_render w data; Ok pdf
          else img ← w_image_decode w data; Ok [img]))
  end.
Proof.
  intros Hp Hne. rewrite (load_scheme_remote _ _ _ _ Hp Hne).
  unfold load_remote, requests_get.
  destruct (w_network w (Request "GET" url true 10))
    as [|e|st why final body]; try reflexivity.
  rewrite bind_Ok. split; intros Hst.
  - rewrite (raise_for_status_error _ _ _ _ Hst). reflexivity.
  - rewrite (raise_for_status_pass _ _ _ _ Hst), bind_Ok. simpl content.
    destruct body as [e|data]; [reflexivity |].
    rewrite !bind_Ok. destruct (bytes_eqb _ _); reflexivity.
Qed.

Lemma C7_fetch_witness :
  w_urlparse_scheme (Demo.world 404 Demo.png_bytes (Ok Demo.hello_engine))
    "http://h/a.png" = Ok "http" /\
  "http" <> "" /\
  load_input_resource (Demo.world 404 Demo.png_bytes (Ok Demo.hello_engine))
    ∅ "http://h/a.png"
    = Raise (Exn "requests.exceptions.HTTPError"
                 "404 Client Error:  for url: http://h/a.png" "").
Proof.
  assert (Hne : "http" <> "") by discriminate.
  split; [reflexivity |]. split; [exact Hne |].
  pose proof (C7_fetch_raises_on_timeout_and_error_status
                (Demo.world 404 Demo.png_bytes (Ok Demo.hello_engine))
                ∅ "http://h/a.png" "http" eq_refl Hne) as H.
  simpl in H. destruct H as [H _]. rewrite H by lia. reflexivity.
Defined.

(** C7 fails for a status that is neither 2xx nor an error status: on a
    reply [300] (Multiple Choices, which names no single location to
    follow) carrying a body, the load raises nothing and goes on with
    that body. *)
Lemma C7_status_300_counterexample :
  w_network (Demo.world 300 Demo.png_bytes (Ok Demo.hello_engine))
    (Request "GET" "http://h/a.png" true 10)
    = NetResponse 300 "" "http://h/a.png" (Ok Demo.png_bytes) /\
  ~ (200 <= 300 < 300)%Z /\
  load_input_resource (Demo.world 300 Demo.png_bytes (Ok Demo.hello_engine))
    ∅ "http://h/a.png" = Ok [Img 7].
Proof.
  split; [reflexivity |]. split; [lia |]. by vm_compute.
Qed.

(** ** The streaming loop *)

Lemma append_nil_l (a : string) : "" +:+ a = a.
Proof. reflexivity. Qed.

Lemma append_cons (x : ascii) (a b : string) :
  String x a +:+ b = String x (a +:+ b).
Proof. reflexivity. Qed.

Lemma append_assoc' (a b c : string) : (a +:+ b) +:+ c = a +:+ (b +:+ c).
Proof.
  induction a as [|x a IH]; [reflexivity |].
  rewrite !append_cons. f_equal. exact IH.
Qed.

Lemma append_empty_r (a : string) : a +:+ "" = a.
Proof.
  induction a as [|x a IH]; [reflexivity |].
  rewrite append_cons. f_equal. exact IH.
Qed.

Lemma prefix_app (n h : string) :
  String.prefix n h = true <-> exists b, h = n +:+ b.
Proof.
  revert h; induction n as [|x n IH]; intros h.
  - destruct h; simpl; split; eauto.
  - destruct h as [|y h]; simpl.
    + split; [discriminate | intros [b Hb]; discriminate].
    + destruct (ascii_dec x y) as [->|Hxy].
      * rewrite IH. split; intros [b Hb]; exists b.
        -- rewrite append_cons. congruence.
        -- rewrite append_cons in Hb. congruence.
      * split; [discriminate |].
        intros [b Hb]. rewrite append_cons in Hb. congruence.
Qed.

Lemma contains_app (n h : string) :
  PyStr.contains n h = true <-> exists a b, h = a +:+ n +:+ b.
Proof.
  induction h as [|y h IH]; cbn [PyStr.contains].
  - rewrite orb_false_r, prefix_app. split.
    + intros [b Hb]. exists "", b. exact Hb.
    + intros (a & b & Hab). destruct a; [eauto |]. discriminate.
  - rewrite orb_true_iff, prefix_app, IH. split.
    + intros [[b Hb] | (a & b & Hab)].
      * exists "", b. exact Hb.
      * exists (String y a), b. rewrite append_cons. congruence.
    + intros (a & b & Hab). destruct a as [|z a].
      * left. eauto.
      * right. exists a, b. rewrite append_cons in Hab. congruence.
Qed.

Lemma contains_append_l (n a b : string) :
  PyStr.contains n a = true -> PyStr.contains n (a +:+ b) = true.
Proof.
  rewrite !contains_app. intros (x & y & ->). exists x, (y +:+ b).
  now rewrite !append_assoc'.
Qed.

Lemma contains_append_r (n a b : string) :
  PyStr.contains n b = true -> PyStr.contains n (a +:+ b) = true.
Proof.
  rewrite !contains_app. intros (x & y & ->). exists (a +:+ x), y.
  now rewrite !append_assoc'.
Qed.

Lemma consume_shift (s : token_stream) (out : string) (d : nat) :
  consume s out d = (r ← consume s "" 0; Ok (out +:+ r.1, d + r.2)).
Proof.
  revert out d; induction s as [|e|t rest IH]; intros out d; simpl.
  - now rewrite append_empty_r, Nat.add_0_r.
  - reflexivity.
  - rewrite append_nil_l.
    destruct (PyStr.contains DOCTAG_END t); simpl.
    + now rewrite Nat.add_1_r.
    + rewrite (IH (out +:+ t)), (IH t).
      destruct (consume rest "" 0) as [e|[o c]]; simpl; [reflexivity |].
      now rewrite append_assoc', Nat.add_succ_r.
Qed.

Lemma stream_texts_bound (step : nat -> gen_step) (k n : nat) :
  length (stream_texts (stream_from step n k)) <= k.
Proof.
  revert n; induction k as [|k IH]; intros n; simpl; [lia |].
  destruct (step n); simpl; [| lia | lia].
  specialize (IH (S n)). lia.
Qed.

(** What the loop has drawn when it ends without an exception: a prefix
    of the stream, cut after the first token that holds the terminator,
    or the whole stream when no token holds it. *)
Lemma consume_spec (s : token_stream) (out : string) (c : nat) :
  consume s "" 0 = Ok (out, c) ->
  c <= length (stream_texts s) /\
  out = join_texts (take c (stream_texts s)) /\
  (forall i t, S i < c -> stream_texts s !! i = Some t ->
               PyStr.contains DOCTAG_END t = false) /\
  ((exists t, 0 < c /\ stream_texts s !! (c - 1) = Some t /\
              PyStr.contains DOCTAG_END t = true) \/
   (c = length (stream_texts s) /\
    Forall (fun t => PyStr.contains DOCTAG_END t = false) (stream_texts s))).
Proof.
  revert out c; induction s as [|e|t rest IH]; intros out c; simpl.
  - intros [= <- <-]. repeat split; [lia | | right; split; [reflexivity | constructor]].
    intros i t Hi. lia.
  - discriminate.
  - rewrite append_nil_l. destruct (PyStr.contains DOCTAG_END t) eqn:Ht.
    + intros [= <- <-]. repeat split.
      * lia.
      * simpl. unfold join_texts; simpl. now rewrite append_empty_r.
      * intros i u Hi. lia.
      * left. exists t. repeat split; [lia | assumption].
    + rewrite consume_shift.
      destruct (consume rest "" 0) as [e|[o c']] eqn:Hrest; [discriminate |].
      simpl. intros [= <- <-].
      destruct (IH o c' eq_refl) as (Hlen & Hout & Hbefore & Hend).
      repeat split.
      * lia.
      * simpl. unfold join_texts in *; simpl. now rewrite Hout.
      * intros [|i] u Hi; simpl.
        -- intros [= <-]. exact Ht.
        -- intros Hu. apply (Hbefore i u); [lia | exact Hu].
      * destruct Hend as [(u & Hpos & Hu & Hcu) | [Hc Hall]].
        -- left. exists u. repeat split; [lia | | exact Hcu].
           destruct c' as [|c'']; [lia |]. simpl in *.
           now rewrite Nat.sub_0_r in *.
        -- right. split; [lia | constructor; assumption].
Qed.

(** A stream that reaches the bound without a terminator is drawn whole. *)
Lemma consume_runaway (step : nat -> gen_step) (k n : nat) :
  (forall m, n <= m < n + k ->
     exists t, step m = GenToken t /\ PyStr.contains DOCTAG_END t = false) ->
  consume (stream_from step n k) "" 0
    = Ok (join_texts (stream_texts (stream_from step n k)), k) /\
  length (stream_texts (stream_from step n k)) = k.
Proof.
  revert n; induction k as [|k IH]; intros n Hrun; simpl; [split; reflexivity |].
  destruct (Hrun n ltac:(lia)) as (t & Hstep & Ht). rewrite Hstep. simpl.
  rewrite append_nil_l, Ht, consume_shift.
  destruct (IH (S n)) as [Hc Hl].
  { intros m Hm. apply Hrun. lia. }
  rewrite Hc, Hl. simpl. split; reflexivity.
Qed.

Lemma join_texts_app (a b : list string) :
  join_texts (a ++ b) = join_texts a +:+ join_texts b.
Proof.
  unfold join_texts. induction a as [|x a IH]; simpl; [reflexivity |].
  now rewrite IH, append_assoc'.
Qed.

Lemma generate_page_bound eng p img out c :
  generate_page eng p img = Ok (out, c) -> c <= MAX_TOKENS.
Proof.
  intros H. apply consume_spec in H as (Hlen & _).
  pose proof (stream_texts_bound (generate_step eng p img) MAX_TOKENS 0).
  unfold stream_generate in Hlen. lia.
Qed.

Lemma generate_page_runaway eng p img :
  never_terminates eng p img ->
  generate_page eng p img = Ok (capped_output eng p img, MAX_TOKENS).
Proof.
  intros Hrun. unfold generate_page, capped_output, stream_generate.
  apply consume_runaway. intros m Hm. apply Hrun. lia.
Qed.

(** ** The loop over the pages *)

Lemma page_step_inv eng p n st i img st' :
  page_step eng p n st i img = Ok st' ->
  exists r, generate_page eng p img = Ok r /\
    all_outputs st' = all_outputs st ++ [r.1] /\
    all_images st' = all_images st ++ [img] /\
    engine_calls st' = engine_calls st ++ [(img, r.2)].
Proof.
  unfold page_step. intros H. apply bind_Ok_inv in H as (r & Hr & Hst).
  injection Hst as <-. exists r. simpl. auto.
Qed.

Lemma run_pages_from_spec eng p n images st i st' :
  run_pages_from eng p n st i images = Ok st' ->
  exists rs,
    Forall2 (fun img r => generate_page eng p img = Ok r) images rs /\
    all_outputs st' = all_outputs st ++ rs.*1 /\
    all_images st' = all_images st ++ images /\
    engine_calls st' = engine_calls st ++ zip images rs.*2.
Proof.
  revert st i; induction images as [|img rest IH]; intros st i; simpl.
  - intros [= <-]. exists []. rewrite !app_nil_r. repeat split. constructor.
  - intros H. apply bind_Ok_inv in H as (st1 & Hstep & Hrest).
    apply page_step_inv in Hstep as (r & Hr & Ho & Hi & Hc).
    apply IH in Hrest as (rs & HF & Ho' & Hi' & Hc').
    exists (r :: rs). split; [constructor; assumption |].
    rewrite Ho', Hi', Hc', Ho, Hi, Hc. simpl.
    rewrite <- !app_assoc. auto.
Qed.

Lemma run_pages_from_ok eng p n images st i :
  Forall (fun img => is_Ok (generate_page eng p img)) images ->
  is_Ok (run_pages_from eng p n st i images).
Proof.
  revert st i; induction images as [|img rest IH]; intros st i HF; simpl.
  - eexists; reflexivity.
  - inversion HF as [|? ? [r Hr] Hrest]; subst.
    unfold page_step. rewrite Hr, bind_Ok. rewrite bind_Ok.
    apply IH. exact Hrest.
Qed.

Lemma run_pages_spec eng p images st :
  run_pages eng p images = Ok st ->
  exists rs,
    Forall2 (fun img r => generate_page eng p img = Ok r) images rs /\
    all_outputs st = rs.*1 /\
    all_images st = images /\
    engine_calls st = zip images rs.*2.
Proof.
  intros H. apply run_pages_from_spec in H as (rs & HF & Ho & Hi & Hc).
  exists rs. auto.
Qed.

(** C2, as the code has it: the loop of a page stops drawing tokens right
    after the first token whose own text holds the closing doctag, whatever
    the engine would yield next; it never draws more than 4096 tokens; and
    the text accumulated so far, the terminating token included, is what
    the iteration appends for the page. *)
Theorem C2_loop_stops_at_terminator_token (eng : engine) (p : string)
    (img : image) (out : string) (c : nat) :
  generate_page eng p img = Ok (out, c) ->
  let texts := stream_texts (stream_generate eng p img MAX_TOKENS) in
  c <= MAX_TOKENS /\ MAX_TOKENS = 4096 /\
  out = join_texts (take c texts) /\
  (forall i t, S i < c -> texts !! i = Some t ->
               PyStr.contains DOCTAG_END t = false) /\
  ((exists t, 0 < c /\ texts !! (c - 1) = Some t /\
              PyStr.contains DOCTAG_END t = true /\
              PyStr.contains DOCTAG_END out = true) \/
   (c = length texts /\
    Forall (fun t => PyStr.contains DOCTAG_END t = false) texts)) /\
  (forall n st i, exists log,
     page_step eng p n st i img =
       Ok (LoopState (all_outputs st ++ [out]) (all_images st ++ [img]) log
                     (engine_calls st ++ [(img, c)]))).
Proof.
  intros Hgen texts.
  pose proof (generate_page_bound _ _ _ _ _ Hgen) as Hb.
  pose proof Hgen as Hspec.
  apply consume_spec in Hspec as (Hlen & Hout & Hbefore & Hend).
  fold texts in Hlen, Hout, Hbefore, Hend.
  split; [exact Hb |]. split; [reflexivity |]. split; [exact Hout |].
  split; [exact Hbefore |]. split.
  - destruct Hend as [(t & Hpos & Ht & Hc) | Hall]; [left | right; exact Hall].
    exists t. repeat split; try assumption.
    destruct c as [|c']; [lia |].
    simpl in Ht. rewrite Nat.sub_0_r in Ht.
    rewrite Hout, (take_S_r _ _ _ Ht), join_texts_app.
    apply contains_append_r. unfold join_texts; simpl.
    rewrite append_empty_r. exact Hc.
  - intros n st i. eexists. unfold page_step. rewrite Hgen, bind_Ok.
    reflexivity.
Qed.

Lemma C2_loop_witness :
  generate_page Demo.hello_engine PROMPT (Img 0)
    = Ok ("<doctag>Hello</doctag>", 3) /\
  3 <= MAX_TOKENS /\
  "<doctag>Hello</doctag>" =
    join_texts
      (take 3 (stream_texts
                 (stream_generate Demo.hello_engine PROMPT (Img 0) MAX_TOKENS))).
Proof.
  assert (H : generate_page Demo.hello_engine PROMPT (Img 0)
              = Ok ("<doctag>Hello</doctag>", 3)) by (by vm_compute).
  split; [exact H |].
  destruct (C2_loop_stops_at_terminator_token _ _ _ _ _ H)
    as (Hb & _ & Hout & _).
  split; [exact Hb | exact Hout].
Defined.

(** C2 fails when the closing doctag arrives in two tokens: after the
    second token the accumulated text holds the terminator, yet the loop
    draws a third token, and the page's output carries text behind the
    terminator. *)
Lemma C2_split_terminator_counterexample :
  stream_texts (stream_generate Demo.split_engine PROMPT (Img 0) MAX_TOKENS)
    = ["<doctag>Hi</doc"; "tag>"; "junk"] /\
  PyStr.contains DOCTAG_END ("<doctag>Hi</doc" +:+ "tag>") = true /\
  generate_page Demo.split_engine PROMPT (Img 0)
    = Ok ("<doctag>Hi</doctag>junk", 3).
Proof. repeat split; by vm_compute. Qed.

(** C4: a page on which the engine reaches the bound of 4096 tokens
    without a terminator yields a partial output, all the text drawn up
    to the bound, and no error; in a run whose other pages generate, the
    run completes, that output stands at the page's position, every page
    has an output, and the engine was called once per page, in order, the
    unterminated page with 4096 tokens drawn. *)
Theorem C4_unterminated_page_degrades (eng : engine) (p : string)
    (images : list image) (i : nat) (img : image) :
  images !! i = Some img ->
  never_terminates eng p img ->
  generate_page eng p img = Ok (capped_output eng p img, MAX_TOKENS) /\
  ((forall j img', j <> i -> images !! j = Some img' ->
                   is_Ok (generate_page eng p img')) ->
   exists st,
     run_pages eng p images = Ok st /\
     all_outputs st !! i = Some (capped_output eng p img) /\
     length (all_outputs st) = length images /\
     (engine_calls st).*1 = images /\
     engine_calls st !! i = Some (img, MAX_TOKENS)).
Proof.
  intros Hi Hrun.
  pose proof (generate_page_runaway _ _ _ Hrun) as Hgen.
  split; [exact Hgen |]. intros Hothers.
  assert (HF : Forall (fun im => is_Ok (generate_page eng p im)) images).
  { apply Forall_lookup. intros j im Hj.
    destruct (decide (j = i)) as [->|Hne].
    - rewrite Hi in Hj. injection Hj as <-. eexists; exact Hgen.
    - eapply Hothers; eassumption. }
  destruct (run_pages_from_ok eng p (length images) images loop_init 0 HF)
    as [st Hst].
  exists st. split; [exact Hst |].
  apply run_pages_spec in Hst as (rs & HF2 & Ho & Him & Hc).
  destruct (Forall2_lookup_l _ _ _ _ _ HF2 Hi) as (r & Hr & Hgr).
  rewrite Hgen in Hgr. injection Hgr as <-.
  pose proof (Forall2_length _ _ _ HF2) as Hlen.
  repeat split.
  - rewrite Ho, list_lookup_fmap, Hr. reflexivity.
  - rewrite Ho, length_fmap. lia.
  - rewrite Hc. apply fst_zip. rewrite length_fmap. lia.
  - rewrite Hc. apply lookup_zip_with_Some. exists img, MAX_TOKENS.
    repeat split; [exact Hi |]. rewrite list_lookup_fmap, Hr. reflexivity.
Qed.

Lemma C4_unterminated_page_witness :
  [Img 0; Img 1] !! 0 = Some (Img 0) /\
  never_terminates Demo.runaway_engine PROMPT (Img 0) /\
  exists st,
    run_pages Demo.runaway_engine PROMPT [Img 0; Img 1] = Ok st /\
    all_outputs st !! 0
      = Some (capped_output Demo.runaway_engine PROMPT (Img 0)) /\
    length (all_outputs st) = 2.
Proof.
  assert (Hrun : never_terminates Demo.runaway_engine PROMPT (Img 0)).
  { intros n _. exists "x". split; reflexivity. }
  split; [reflexivity |]. split; [exact Hrun |].
  destruct (C4_unterminated_page_degrades Demo.runaway_engine PROMPT
              [Img 0; Img 1] 0 (Img 0) eq_refl Hrun) as [_ Hrest].
  destruct Hrest as (st & Hst & Ho & Hl & _).
  - intros [|[|j]] img' Hj Hl; simpl in Hl; try congruence; try discriminate.
    injection Hl as <-. eexists. by vm_compute.
  - exists st. auto.
Defined.

(** ** The assembler on the outputs of the loop *)

Section AssemblerFacts.

Variable parse_page : nat -> string -> outcome (list DocumentElement).





End AssemblerFacts.



(** C6: each iteration appends one entry to the list of outputs and one
    to the list of images, so when the loop ends the two lists have the
    same length, the number of pages, and the count test of the assembler
    passes: the assembler goes on to parse the pages. *)
Theorem C6_outputs_and_images_in_lockstep (eng : engine) (p : string)
    (images : list image)
    (parse_page : nat -> string -> outcome (list DocumentElement)) :
  (forall n st i img st',
     page_step eng p n st i img = Ok st' ->
     length (all_outputs st') = S (length (all_outputs st)) /\
     length (all_images st') = S (length (all_images st))) /\
  match run_pages eng p images with
  | Ok st =>
      length (all_outputs st) = length (all_images st) /\
      length (all_images st) = length images /\
      assemble parse_page (all_outputs st) (all_images st) =
        (forests ← parse_pages parse_page 0 (all_outputs st);
         Ok (Tree "ProcessedDocument" (join_pages 0 forests) (all_images st)))
  | Raise _ => True
  end.
Proof.
  split.
  - intros n st i img st' Hstep.
    apply page_step_inv in Hstep as (r & _ & Ho & Hi & _).
    rewrite Ho, Hi, !length_app. simpl. lia.
  - destruct (run_pages eng p images) as [e|st] eqn:Hrun; [exact I |].
    apply run_pages_spec in Hrun as (rs & HF & Ho & Him & _).
    pose proof (Forall2_length _ _ _ HF) as Hlen.
    assert (Heq : length (all_outputs st) = length (all_images st))
      by (rewrite Ho, Him, length_fmap; lia).
    split; [exact Heq |]. split; [now rewrite Him |].
    unfold assemble. rewrite Heq, Nat.eqb_refl. reflexivity.
Qed.

Lemma C6_lockstep_witness :
  exists st,
    run_pages Demo.hello_engine PROMPT [Img 4; Img 2] = Ok st /\
    length (all_outputs st) = length (all_images st) /\
    length (all_images st) = 2.
Proof.
  pose proof (C6_outputs_and_images_in_lockstep Demo.hello_engine PROMPT
                [Img 4; Img 2] Demo.parse_page) as [_ H].
  destruct (run_pages Demo.hello_engine PROMPT [Img 4; Img 2]) as [e|st] eqn:Hr.
  - exfalso. vm_compute in Hr. discriminate.
  - exists st. destruct H as (H1 & H2 & _). auto.
Defined.

(** ** The export step *)







(** ** The download step *)

Lemma utf8_char_scalar (c : N) :
  is_scalar c = true -> is_Ok (utf8_char c).
Proof.
  intros H. unfold utf8_char. rewrite H. simpl.
  destruct (c <? 128)%N; [eexists; reflexivity |].
  destruct (c <? 2048)%N; [eexists; reflexivity |].
  destruct (c <? 65536)%N; eexists; reflexivity.
Qed.

Lemma utf8_encode_scalars (s : list N) :
  Forall (fun c => is_scalar c = true) s -> is_Ok (utf8_encode s).
Proof.
  induction 1 as [|c s Hc _ [bs IH]]; [eexists; reflexivity |].
  destruct (utf8_char_scalar c Hc) as [b Hb].
  simpl. rewrite Hb, IH. eexists. reflexivity.
Qed.

Lemma length_append (a b : string) :
  String.length (a +:+ b) = String.length a + String.length b.
Proof.
  induction a as [|x a IH]; [reflexivity |].
  rewrite append_cons. simpl. now rewrite IH.
Qed.

Lemma drop_append (a b : string) : PyStr.drop (String.length a) (a +:+ b) = b.
Proof.
  induction a as [|x a IH]; [destruct b; reflexivity |].
  rewrite append_cons. simpl. exact IH.
Qed.

Lemma endswith_append (a b : string) : PyStr.endswith (a +:+ b) b = true.
Proof.
  unfold PyStr.endswith. rewrite length_append.
  replace (String.length a + String.length b - String.length b)
    with (String.length a) by lia.
  rewrite drop_append, String.eqb_refl. simpl.
  apply Nat.leb_le. lia.
Qed.

Lemma download_ext_cases (export_format : string) :
  download_ext "Markdown" = ".md" /\
  download_ext "HTML" = ".html" /\
  download_ext "JSON" = ".json" /\
  (export_format <> "Markdown" -> export_format <> "HTML" ->
   export_format <> "JSON" -> download_ext export_format = ".txt").
Proof.
  repeat split. intros Hm Hh Hj. unfold download_ext.
  destruct (String.eqb_spec export_format "Markdown"); [contradiction |].
  destruct (String.eqb_spec export_format "HTML"); [contradiction |].
  destruct (String.eqb_spec export_format "JSON"); [contradiction |].
  reflexivity.
Qed.

(** C9, as the code has it: a download request for a payload that UTF-8
    can encode (no lone surrogate), when [tempfile] provides a name,
    writes the UTF-8 encoding of the payload
    to one temporary file whose name ends with the extension of the
    format, [.md] for Markdown, [.html] for HTML and [.json] for JSON;
    every other path of the file system is left as it was, and both
    download buttons are given that file. *)
Theorem C9_download_writes_one_file (w : World) (result : list N)
    (export_format : string) (fs : gmap string (list byte)) (stem : string) :
  w_tmp_stem w fs = Ok stem ->
  Forall (fun c => is_scalar c = true) result ->
  let temp_file := stem +:+ download_ext export_format in
  exists data,
    utf8_encode result = Ok data /\
    prepare_download w result export_format fs
      = (<[temp_file := data]> fs, Ok (temp_file, temp_file)) /\
    (<[temp_file := data]> fs) !! temp_file = Some data /\
    (forall p, p <> temp_file -> (<[temp_file := data]> fs) !! p = fs !! p) /\
    PyStr.endswith temp_file (download_ext export_format) = true /\
    download_ext "Markdown" = ".md" /\
    download_ext "HTML" = ".html" /\
    download_ext "JSON" = ".json".
Proof.
  intros Hs Hsc temp_file.
  destruct (utf8_encode_scalars result Hsc) as [data Hd].
  exists data. split; [exact Hd |]. split.
  - unfold prepare_download, NamedTemporaryFile, io_bind, io_write, io_lift,
      io_ret.
    rewrite Hs, Hd. fold temp_file. now rewrite insert_insert_eq.
  - split; [apply lookup_insert_eq |]. split.
    + intros p Hp. apply lookup_insert_ne. congruence.
    + split; [apply endswith_append |]. repeat split.
Qed.

Lemma C9_download_witness :
  w_tmp_stem Demo.w200 ∅ = Ok "/tmp/tmpf1" /\
  Forall (fun c => is_scalar c = true) [0x48; 0xE9; 0x20AC]%N /\
  prepare_download Demo.w200 [0x48; 0xE9; 0x20AC]%N "Markdown" ∅
    = (<["/tmp/tmpf1.md" := [x48; xc3; xa9; xe2; x82; xac]]> ∅,
       Ok ("/tmp/tmpf1.md", "/tmp/tmpf1.md")).
Proof.
  assert (Hsc : Forall (fun c => is_scalar c = true) [0x48; 0xE9; 0x20AC]%N)
    by (repeat constructor).
  split; [reflexivity |]. split; [exact Hsc |].
  destruct (C9_download_writes_one_file Demo.w200 [0x48; 0xE9; 0x20AC]%N
              "Markdown" ∅ "/tmp/tmpf1" eq_refl Hsc) as (data & Hd & Hp & _).
  vm_compute in Hd. injection Hd as <-. exact Hp.
Defined.

(** C9 fails for a payload with a lone surrogate: the text is not
    written; the step raises [UnicodeEncodeError] and the temporary file
    it has created stays empty. *)
Lemma C9_surrogate_counterexample :
  w_tmp_stem Demo.w200 ∅ = Ok "/tmp/tmpf1" /\
  (prepare_download Demo.w200 [0x48; 0xD800]%N "Markdown" ∅).2
    = Raise UnicodeEncodeError /\
  (prepare_download Demo.w200 [0x48; 0xD800]%N "Markdown" ∅).1
    !! "/tmp/tmpf1.md" = Some [].
Proof. repeat split; by vm_compute. Qed.

(** ** [process_document] as a whole *)

Lemma process_document_handler w file_obj url_input export_format fs :
  process_document w file_obj url_input export_format fs =
    match process_document_body w file_obj url_input export_format fs with
    | (fs', Ok r) => (fs', Ok r)
    | (fs', Raise e) => (fs', except_Exception e)
    end.
Proof. reflexivity. Qed.

Lemma body_without_input w eng fs export_format url_input :
  w_load_model w = Ok eng ->
  PyStr.strip url_input = "" ->
  process_document_body w None url_input export_format fs
    = (fs, Ok ("Please provide either a file upload or a URL", None, None)).
Proof.
  intros Hm Hu. unfold process_document_body, io_bind, io_lift.
  rewrite Hm, Hu. reflexivity.
Qed.

(** *** Every exception of the body is one a library raised or one of
    a class deriving from [Exception] *)

Lemma raises_caught_Ok {A} (a : A) : raises_caught (Ok a).
Proof. intros e [=]. Qed.

Lemma raises_caught_Exn {A} (class msg frames : string) :
  raises_caught (@Raise A (Exn class msg frames)).
Proof. intros e [= <-]. reflexivity. Qed.

Lemma raises_caught_bind {A B} (m : outcome A) (k : A -> outcome B) :
  raises_caught m -> (forall a, raises_caught (k a)) ->
  raises_caught (m ≫= k).
Proof.
  intros Hm Hk. destruct m as [e'|a].
  - rewrite bind_Raise. intros e [= <-]. apply Hm. reflexivity.
  - rewrite bind_Ok. apply Hk.
Qed.

Lemma io_bind_caught_dep {A B} (m : io A) (k : A -> io B) :
  io_raises_caught m ->
  (forall a fs fs', m fs = (fs', Ok a) -> raises_caught (k a fs').2) ->
  io_raises_caught (io_bind m k).
Proof.
  intros Hm Hk fs. unfold io_bind. specialize (Hm fs).
  destruct (m fs) as [fs' [e'|a]] eqn:Hrun; simpl in *.
  - intros e [= <-]. apply Hm. reflexivity.
  - exact (Hk a fs fs' Hrun).
Qed.

Lemma io_bind_caught {A B} (m : io A) (k : A -> io B) :
  io_raises_caught m -> (forall a, io_raises_caught (k a)) ->
  io_raises_caught (io_bind m k).
Proof.
  intros Hm Hk. apply io_bind_caught_dep; [exact Hm |].
  intros a fs fs' _. apply Hk.
Qed.

Lemma io_lift_caught {A} (m : outcome A) :
  raises_caught m -> io_raises_caught (io_lift m).
Proof. intros Hm fs. exact Hm. Qed.

Lemma io_ret_caught {A} (a : A) : io_raises_caught (io_ret a).
Proof. intros fs. apply raises_caught_Ok. Qed.

Lemma io_write_caught path data : io_raises_caught (io_write path data).
Proof. intros fs. apply raises_caught_Ok. Qed.

Lemma io_read_caught path : io_raises_caught (io_read path).
Proof.
  intros fs. unfold io_read; simpl. destruct (fs !! path).
  - apply raises_caught_Ok.
  - apply raises_caught_Exn.
Qed.

Section Provenance.

Variable w : World.
Hypothesis Hw : world_raises_caught w.

Lemma load_remote_caught url : raises_caught (load_remote w url).
Proof.
  unfold load_remote, requests_get.
  pose proof (rc_network w Hw (Request "GET" url true 10)) as Hnet.
  destruct (w_network w (Request "GET" url true 10))
    as [|e0|st why final body].
  - rewrite bind_Raise. apply raises_caught_Exn.
  - rewrite bind_Raise. intros e [= <-]. exact Hnet.
  - rewrite bind_Ok. unfold raise_for_status.
    destruct ((400 <=? _)%Z && _).
    + rewrite bind_Raise. apply raises_caught_Exn.
    + rewrite bind_Ok. simpl content.
      apply raises_caught_bind; [exact Hnet |]. intros data.
      destruct (bytes_eqb _ _); apply raises_caught_bind;
        first [apply (rc_pdf_render w Hw) | apply (rc_image_decode w Hw)
              | intros; apply raises_caught_Ok].
Qed.

Lemma load_local_caught fs path : raises_caught (load_local w fs path).
Proof.
  unfold load_local, convert_from_path, Image_open_path.
  destruct (String.eqb _ _); apply raises_caught_bind;
    try (intros; apply raises_caught_Ok);
    destruct (fs !! path);
    first [apply (rc_pdf_render w Hw) | apply (rc_image_decode w Hw)
          | apply raises_caught_Exn].
Qed.

Lemma load_input_resource_caught fs ref :
  raises_caught (load_input_resource w fs ref).
Proof.
  unfold load_input_resource.
  apply raises_caught_bind; [apply (rc_urlparse w Hw) |].
  intros scheme. destruct (input_origin scheme).
  - apply load_remote_caught.
  - apply load_local_caught.
Qed.

Lemma consume_caught (step : nat -> gen_step) :
  (forall n e, step n = GenRaise e -> caught e) ->
  forall m n out d, raises_caught (consume (stream_from step n m) out d).
Proof.
  intros Hstep. induction m as [|m IH]; intros n out d; simpl.
  - apply raises_caught_Ok.
  - destruct (step n) as [t| |e0] eqn:Hs; simpl.
    + destruct (PyStr.contains DOCTAG_END t);
        [apply raises_caught_Ok | apply IH].
    + apply raises_caught_Ok.
    + intros e [= <-]. exact (Hstep n e0 Hs).
Qed.

Lemma run_pages_from_caught eng p :
  engine_raises_caught eng ->
  forall images n st i, raises_caught (run_pages_from eng p n st i images).
Proof.
  intros [Hgen _]. induction images as [|img rest IH]; intros n st i; simpl.
  - apply raises_caught_Ok.
  - apply raises_caught_bind; [| intros st'; apply IH].
    unfold page_step. apply raises_caught_bind;
      [| intros; apply raises_caught_Ok].
    unfold generate_page, stream_generate. apply consume_caught.
    intros k e. apply Hgen.
Qed.

Lemma NamedTemporaryFile_caught ext :
  io_raises_caught (NamedTemporaryFile w ext).
Proof.
  unfold NamedTemporaryFile. apply io_bind_caught.
  - intros fs. simpl. apply (rc_tmp_stem w Hw).
  - intros stem. apply io_bind_caught; [apply io_write_caught |].
    intros _. apply io_ret_caught.
Qed.

Lemma export_step_caught doc export_format :
  io_raises_caught (export_step w doc export_format).
Proof.
  unfold export_step.
  destruct (String.eqb export_format "Markdown");
    [apply io_lift_caught, (rc_markdown w Hw) |].
  destruct (String.eqb export_format "HTML").
  - apply io_bind_caught; [apply NamedTemporaryFile_caught |]. intros path.
    apply io_bind_caught; [apply io_lift_caught, (rc_html w Hw) |].
    intros html.
    apply io_bind_caught; [apply io_write_caught |]. intros _.
    apply io_bind_caught; [apply io_read_caught |]. intros data.
    apply io_lift_caught. unfold read_text.
    apply raises_caught_bind; [apply (rc_locale_decode w Hw) |].
    intros; apply raises_caught_Ok.
  - destruct (String.eqb export_format "JSON");
      [apply io_lift_caught, (rc_json w Hw) | apply io_ret_caught].
Qed.

Lemma convert_caught eng input_path export_format :
  engine_raises_caught eng ->
  io_raises_caught (convert w eng input_path export_format).
Proof.
  intros Heng. unfold convert. apply io_bind_caught.
  - intros fs. simpl. apply load_input_resource_caught.
  - intros [|first rest]; [apply io_ret_caught |].
    apply io_bind_caught; [apply io_lift_caught, (proj2 Heng) |]. intros p.
    apply io_bind_caught;
      [apply io_lift_caught, run_pages_from_caught, Heng |]. intros st.
    apply io_bind_caught; [apply io_lift_caught, (rc_assemble w Hw) |].
    intros doc.
    apply io_bind_caught; [apply export_step_caught |]. intros result.
    apply io_ret_caught.
Qed.

Lemma save_upload_caught f :
  upload_raises_caught (Some f) -> io_raises_caught (save_upload w f).
Proof.
  intros Hf. unfold save_upload.
  apply io_bind_caught; [apply io_lift_caught, (rc_mkdtemp w Hw) |].
  intros temp_dir. destruct f as [name data|path|name|].
  - apply io_bind_caught; [apply io_lift_caught, (rc_open_wb w Hw) |].
    intros _.
    apply io_bind_caught; [apply io_write_caught |]. intros _.
    apply io_bind_caught; [apply io_lift_caught, Hf |]. intros bytes.
    apply io_bind_caught; [apply io_write_caught |]. intros _.
    apply io_ret_caught.
  - apply io_ret_caught.
  - apply io_ret_caught.
  - apply io_lift_caught, raises_caught_Exn.
Qed.

Lemma process_document_body_caught file_obj url_input export_format :
  upload_raises_caught file_obj ->
  io_raises_caught (process_document_body w file_obj url_input export_format).
Proof.
  intros Hf. unfold process_document_body.
  apply io_bind_caught_dep; [apply io_lift_caught, (rc_load_model w Hw) |].
  intros eng fs fs' Hload.
  assert (Heng : engine_raises_caught eng).
  { apply (rc_engine w Hw). unfold io_lift in Hload. congruence. }
  destruct file_obj as [f|].
  - apply io_bind_caught; [apply save_upload_caught, Hf |].
    intros path. apply convert_caught, Heng.
  - destruct (negb _); [apply convert_caught, Heng | apply io_ret_caught].
Qed.

End Provenance.

(** C10, as the code has it: the handler of [process_document] catches
    the exceptions of classes deriving from [Exception] and lets any other
    through.  So when the libraries under it (model loading, resource
    loading, inference, assembly, export, temporary files) and the upload
    raise such exceptions only, [process_document] raises nothing, whatever
    its arguments, and returns a triple.  When its body returns, the
    triple is the body's; when the body raises a caught [e], the first
    component is the error text built from [e], the second is [None] and
    the third is the traceback text, not [None]; an exception of another
    class (an interrupt from the keyboard, an exit) goes on to the caller.
    With neither a file nor a URL, once the model is loaded, the triple is
    the request for an input with two [None]. *)
Theorem C10_process_document_always_answers (w : World)
    (file_obj : option upload) (url_input export_format : string)
    (fs : gmap string (list byte)) :
  (world_raises_caught w -> upload_raises_caught file_obj ->
   exists fs' r,
     process_document w file_obj url_input export_format fs = (fs', Ok r)) /\
  (forall fs' e,
     process_document_body w file_obj url_input export_format fs
       = (fs', Raise e) ->
     (exc_is_exception e = true ->
      process_document w file_obj url_input export_format fs
        = (fs', Ok ("Error processing document: " +:+ exc_msg e +:+ LF +:+ LF
                    +:+ "Details:" +:+ LF +:+ format_exc e,
                    None, Some (format_exc e)))) /\
     (exc_is_exception e = false ->
      process_document w file_obj url_input export_format fs
        = (fs', Raise e))) /\
  (forall fs' r,
     process_document_body w file_obj url_input export_format fs
       = (fs', Ok r) ->
     process_document w file_obj url_input export_format fs = (fs', Ok r)) /\
  (forall eng,
     file_obj = None -> PyStr.strip url_input = "" ->
     w_load_model w = Ok eng ->
     process_document w file_obj url_input export_format fs
       = (fs, Ok ("Please provide either a file upload or a URL", None, None))).
Proof.
  split; [| split; [| split]].
  - intros Hw Hf. rewrite process_document_handler.
    pose proof (process_document_body_caught w Hw file_obj url_input
                  export_format Hf fs) as Hbody.
    destruct (process_document_body w file_obj url_input export_format fs)
      as [fs' [e|r]]; simpl in Hbody.
    + exists fs', (error_answer e). unfold except_Exception.
      now rewrite (Hbody e eq_refl).
    + exists fs', r. reflexivity.
  - intros fs' e Hbody. rewrite process_document_handler, Hbody.
    unfold except_Exception. split; intros ->; reflexivity.
  - intros fs' r Hbody. now rewrite process_document_handler, Hbody.
  - intros eng -> Hu Hm. rewrite process_document_handler.
    now rewrite (body_without_input _ _ _ _ _ Hm Hu).
Qed.

Lemma demo_parse_pages_caught (outs : list string) :
  forall k, raises_caught (parse_pages Demo.parse_page k outs).
Proof.
  induction outs as [|o outs IH]; intros k; cbn [parse_pages].
  - apply raises_caught_Ok.
  - apply raises_caught_bind; [apply raises_caught_Ok |]. intros forest.
    apply raises_caught_bind; [apply IH | intros; apply raises_caught_Ok].
Qed.

(** The libraries of the world [Demo.w200] raise caught exceptions only. *)
Lemma demo_world_raises_caught : world_raises_caught Demo.w200.
Proof.
  constructor; simpl.
  - intros url. unfold Urllib.urlparse_scheme.
    destruct (String.prefix _ _); [| apply raises_caught_Ok].
    destruct (_ || _); [apply raises_caught_Exn | apply raises_caught_Ok].
  - intros req. apply raises_caught_Ok.
  - intros d. unfold Demo.pdf_render.
    destruct (bytes_eqb _ _); [apply raises_caught_Ok | apply raises_caught_Exn].
  - intros d. unfold Demo.image_decode.
    destruct (bytes_eqb _ _); [apply raises_caught_Exn | apply raises_caught_Ok].
  - apply raises_caught_Ok.
  - intros eng [= <-]. split.
    + intros p img [|[|[|n]]] e; discriminate.
    + intros p n. apply raises_caught_Ok.
  - apply raises_caught_Ok.
  - intros fs. apply raises_caught_Ok.
  - intros path. apply raises_caught_Ok.
  - intros d. apply raises_caught_Ok.
  - intros o i. unfold assemble.
    destruct (_ =? _); [| apply raises_caught_Exn].
    apply raises_caught_bind;
      [apply demo_parse_pages_caught | intros; apply raises_caught_Ok].
  - intros d. apply raises_caught_Ok.
  - intros d. apply raises_caught_Ok.
  - intros d. apply raises_caught_Ok.
Qed.

Lemma C10_process_document_witness :
  PyStr.strip "   " = "" /\
  w_load_model Demo.w200 = Ok Demo.hello_engine /\
  process_document Demo.w200 None "   " "Markdown" ∅
    = (∅, Ok ("Please provide either a file upload or a URL", None, None)) /\
  world_raises_caught Demo.w200 /\
  upload_raises_caught None /\
  exists fs' r,
    process_document Demo.w200 None "http://h/missing.png" "HTML" ∅
      = (fs', Ok r).
Proof.
  split; [reflexivity |]. split; [reflexivity |].
  destruct (C10_process_document_always_answers Demo.w200 None "   "
              "Markdown" ∅) as (_ & _ & _ & H).
  split; [exact (H Demo.hello_engine eq_refl eq_refl eq_refl) |].
  split; [exact demo_world_raises_caught |]. split; [exact I |].
  exact (proj1 (C10_process_document_always_answers Demo.w200 None
                  "http://h/missing.png" "HTML" ∅)
           demo_world_raises_caught I).
Defined.

(** C10 fails twice as stated.  When the model cannot be loaded the
    exception is caught, and the third component of the answer is the
    traceback text rather than [None]; and an interrupt from the keyboard
    during the inference of a page is not caught by [except Exception]: it
    goes on to the caller. *)
Lemma C10_traceback_counterexample :
  (process_document Demo.w_no_model None "http://h/report.png" "Markdown" ∅).2
    = Ok ("Error processing document: no Metal device available" +:+ LF +:+ LF
          +:+ "Details:" +:+ LF +:+ format_exc Demo.load_failure,
          None, Some (format_exc Demo.load_failure)) /\
  Some (format_exc Demo.load_failure) <> None /\
  (process_document Samples.w_interrupted None "http://h/report.png"
     "Markdown" ∅).2
    = Raise Samples.keyboard_interrupt.
Proof. split; [by vm_compute | split; [discriminate | by vm_compute]]. Qed.

(** * Further properties of the program *)

(** ** Blanks around the URL *)

Lemma rstrip_idem (s : string) : PyStr.rstrip (PyStr.rstrip s) = PyStr.rstrip s.
Proof.
  induction s as [|c rest IH]; [reflexivity |].
  cbn [PyStr.rstrip]. destruct (PyStr.rstrip rest) as [|d r] eqn:Hr.
  - destruct (PyStr.isspace c) eqn:Hc; [reflexivity |].
    cbn [PyStr.rstrip]. now rewrite Hc.
  - change (PyStr.rstrip (String c (String d r)))
      with (match PyStr.rstrip (String d r) with
            | EmptyString =>
                if PyStr.isspace c then EmptyString else String c EmptyString
            | String x y => String c (String x y)
            end).
    now rewrite IH.
Qed.

Lemma lstrip_no_leading_blank (s : string) : no_leading_blank (PyStr.lstrip s).
Proof.
  induction s as [|c rest IH]; [exact I |].
  cbn [PyStr.lstrip]. destruct (PyStr.isspace c) eqn:Hc; [exact IH | exact Hc].
Qed.

Lemma rstrip_no_leading_blank (s : string) :
  no_leading_blank s -> no_leading_blank (PyStr.rstrip s).
Proof.
  destruct s as [|c rest]; [intros _; exact I |].
  cbn [no_leading_blank PyStr.rstrip]. intros Hc.
  destruct (PyStr.rstrip rest); [rewrite Hc |]; exact Hc.
Qed.

Lemma lstrip_id (s : string) : no_leading_blank s -> PyStr.lstrip s = s.
Proof.
  destruct s as [|c rest]; [reflexivity |].
  cbn [no_leading_blank PyStr.lstrip]. now intros ->.
Qed.

Lemma strip_idem (s : string) : PyStr.strip (PyStr.strip s) = PyStr.strip s.
Proof.
  unfold PyStr.strip.
  rewrite lstrip_id
    by (apply rstrip_no_leading_blank, lstrip_no_leading_blank).
  apply rstrip_idem.
Qed.

(** X1: blanks before and after the URL do not matter: without a file,
    [process_document] answers for a URL as it does for the same URL
    stripped of its leading and trailing blanks. *)
Theorem X1_url_blanks_ignored (w : World) (url_input export_format : string)
    (fs : gmap string (list byte)) :
  process_document w None url_input export_format fs
    = process_document w None (PyStr.strip url_input) export_format fs.
Proof.
  unfold process_document, process_document_body.
  now rewrite strip_idem.
Qed.

(** ** The name of a path *)

Lemma split_nonempty (sep : ascii) (s : string) : PyStr.split sep s <> [].
Proof.
  destruct s as [|c rest]; cbn [PyStr.split]; [discriminate |].
  destruct (Ascii.eqb c sep); [discriminate |].
  destruct (PyStr.split sep rest); discriminate.
Qed.

Lemma split_app (sep : ascii) (a b : string) :
  PyStr.split sep (a +:+ String sep b) = PyStr.split sep a ++ PyStr.split sep b.
Proof.
  induction a as [|c a IH].
  - rewrite append_nil_l. cbn [PyStr.split]. now rewrite Ascii.eqb_refl.
  - rewrite append_cons. cbn [PyStr.split]. rewrite IH.
    destruct (Ascii.eqb c sep); [reflexivity |].
    pose proof (split_nonempty sep a) as Hne.
    destruct (PyStr.split sep a) as [|x xs]; [contradiction | reflexivity].
Qed.

Lemma split_lacks (sep : ascii) (s : string) :
  lacks sep s -> PyStr.split sep s = [s].
Proof.
  induction s as [|c rest IH]; [reflexivity |].
  cbn [lacks PyStr.split]. intros [Hc Hrest].
  destruct (Ascii.eqb_spec c sep); [contradiction |].
  now rewrite (IH Hrest).
Qed.

Lemma last_snoc {A} (l : list A) (x d : A) : List.last (l ++ [x]) d = x.
Proof.
  induction l as [|y l IH]; [reflexivity |].
  simpl. destruct (l ++ [x]) eqn:E; [destruct l; discriminate | exact IH].
Qed.

Lemma path_name_join (dir name : string) :
  lacks "/" name -> name <> "" -> name <> "." ->
  Path.name (dir +:+ String "/" name) = name.
Proof.
  intros Hl Hne Hdot. unfold Path.name, Path.parts.
  rewrite split_app, filter_app, (split_lacks _ _ Hl).
  rewrite filter_cons, decide_True by (split; assumption).
  rewrite filter_nil. apply last_snoc.
Qed.

(** X2: the directories of a path do not take part in the detection of
    a local PDF: the suffix of [dir/name] is the suffix of [name], for a
    file name without a slash other than the empty name and the dot; so
    [load_local] renders [dir/name] as a PDF exactly when [name] ends
    with [.pdf] in some letter case, with a last dot that is not its
    first character. *)
Theorem X2_suffix_ignores_directories (dir name : string) :
  lacks "/" name -> name <> "" -> name <> "." ->
  Path.suffix (dir +:+ String "/" name) = Path.suffix name /\
  Path.name name = name.
Proof.
  intros Hl Hne Hdot.
  assert (Hn : Path.name name = name).
  { unfold Path.name, Path.parts. rewrite (split_lacks _ _ Hl).
    rewrite filter_cons, decide_True by (split; assumption).
    reflexivity. }
  split; [| exact Hn].
  unfold Path.suffix. now rewrite (path_name_join _ _ Hl Hne Hdot), Hn.
Qed.

Lemma X2_suffix_witness :
  lacks "/" "Report.PDF" /\ "Report.PDF" <> "" /\ "Report.PDF" <> "." /\
  Path.suffix ("/tmp/my.pdf/dir" +:+ String "/" "Report.PDF")
    = Path.suffix "Report.PDF".
Proof.
  assert (Hl : lacks "/" "Report.PDF")
    by (cbn; repeat split; discriminate).
  assert (H1 : "Report.PDF" <> "") by discriminate.
  assert (H2 : "Report.PDF" <> ".") by discriminate.
  repeat (split; [assumption |]).
  exact (proj1 (X2_suffix_ignores_directories "/tmp/my.pdf/dir" "Report.PDF"
                  Hl H1 H2)).
Defined.

(** ** Uploads *)

(** X3: an uploaded file object that can be read is copied to the path
    [os.path.join] builds from the temporary directory and the upload's
    name ([uploaded_file] when it has none): afterwards that path holds
    exactly the bytes read, no other path has changed, and loading the
    path decodes those bytes, as a PDF or as an image according to the
    suffix of the path.  When reading the upload raises, the exception
    goes on and the file just created stays behind, empty. *)
Theorem X3_upload_copied_then_loaded (w : World)
    (fs : gmap string (list byte)) (name : option string)
    (bytes : list byte) (dir : string) :
  let temp_path := os_path_join dir (default "uploaded_file" name) in
  w_mkdtemp w = Ok dir ->
  w_open_wb w temp_path = Ok tt ->
  save_upload w (FileLike name (Ok bytes)) fs
    = (<[temp_path := bytes]> fs, Ok temp_path) /\
  (<[temp_path := bytes]> fs) !! temp_path = Some bytes /\
  (forall p, p <> temp_path -> (<[temp_path := bytes]> fs) !! p = fs !! p) /\
  load_local w (<[temp_path := bytes]> fs) temp_path =
    (if String.eqb (PyStr.lower (Path.suffix temp_path)) ".pdf"
     then pdf ← w_pdf_render w bytes; Ok pdf
     else img ← w_image_decode w bytes; Ok [img]) /\
  (forall e, save_upload w (FileLike name (Raise e)) fs
             = (<[temp_path := []]> fs, Raise e)).
Proof.
  intros temp_path Hd Ho.
  assert (Hname : match name with Some n => n | None => "uploaded_file" end
                  = default "uploaded_file" name) by (destruct name; reflexivity).
  split; [| split; [| split; [| split]]].
  - unfold save_upload, io_bind, io_lift, io_write, io_ret.
    rewrite Hd. rewrite Hname. fold temp_path. rewrite Ho.
    now rewrite insert_insert_eq.
  - apply lookup_insert_eq.
  - intros p Hp. apply lookup_insert_ne. congruence.
  - apply load_local_file, lookup_insert_eq.
  - intros e. unfold save_upload, io_bind, io_lift, io_write, io_ret.
    rewrite Hd. rewrite Hname. fold temp_path. now rewrite Ho.
Qed.

Lemma X3_upload_witness :
  w_mkdtemp Demo.w200 = Ok "/tmp/tmpd1" /\
  w_open_wb Demo.w200 (os_path_join "/tmp/tmpd1" "scan.PDF") = Ok tt /\
  save_upload Demo.w200 (FileLike (Some "scan.PDF") (Ok Demo.pdf_bytes)) ∅
    = (<["/tmp/tmpd1/scan.PDF" := Demo.pdf_bytes]> ∅,
       Ok "/tmp/tmpd1/scan.PDF").
Proof.
  split; [reflexivity |]. split; [reflexivity |].
  exact (proj1 (X3_upload_copied_then_loaded Demo.w200 ∅ (Some "scan.PDF")
                  Demo.pdf_bytes "/tmp/tmpd1" eq_refl eq_refl)).
Defined.

(** ** Failures before the pages *)

(** X4: when the model cannot be loaded, [process_document] hands the
    exception to its handler whatever the arguments are, also when neither
    a file nor a URL is given, and touches no file: the model is loaded
    before the input is looked at.  For an exception the handler catches
    the answer is the error text of that exception. *)
Theorem X4_model_failure_comes_first (w : World) (e : exn)
    (file_obj : option upload) (url_input export_format : string)
    (fs : gmap string (list byte)) :
  w_load_model w = Raise e ->
  process_document w file_obj url_input export_format fs
    = (fs, except_Exception e) /\
  (exc_is_exception e = true ->
   process_document w file_obj url_input export_format fs
     = (fs, Ok (error_answer e))).
Proof.
  intros Hm.
  assert (H : process_document w file_obj url_input export_format fs
              = (fs, except_Exception e)).
  { unfold process_document, process_document_body, io_bind, io_lift.
    now rewrite Hm. }
  split; [exact H |]. intros He. rewrite H. unfold except_Exception.
  now rewrite He.
Qed.

Lemma X4_model_failure_witness :
  w_load_model Demo.w_no_model = Raise Demo.load_failure /\
  process_document Demo.w_no_model None "" "JSON" ∅
    = (∅, Ok (error_answer Demo.load_failure)).
Proof.
  split; [reflexivity |].
  exact (proj2 (X4_model_failure_comes_first Demo.w_no_model
                  Demo.load_failure None "" "JSON" ∅ eq_refl) eq_refl).
Defined.

(** X5: a resource that loads without a page, as a PDF in which the
    renderer finds none, is answered with the text [No images could be
    extracted from the provided file or URL] and two [None]; no prompt is
    built and no file is written. *)
Theorem X5_no_page_no_run (w : World) (eng : engine)
    (url_input export_format : string) (fs : gmap string (list byte)) :
  w_load_model w = Ok eng ->
  PyStr.strip url_input <> "" ->
  load_input_resource w fs (PyStr.strip url_input) = Ok [] ->
  process_document w None url_input export_format fs
    = (fs, Ok ("No images could be extracted from the provided file or URL",
               None, None)).
Proof.
  intros Hm Hu Hl.
  unfold process_document, process_document_body, io_bind, io_lift.
  rewrite Hm. destruct (String.eqb_spec (PyStr.strip url_input) "");
    [contradiction |].
  simpl. unfold convert, io_bind. now rewrite Hl.
Qed.

Lemma X5_no_page_witness :
  w_load_model Samples.w_empty_pdf = Ok Demo.hello_engine /\
  PyStr.strip " http://h/empty.pdf" <> "" /\
  load_input_resource Samples.w_empty_pdf ∅ (PyStr.strip " http://h/empty.pdf")
    = Ok [] /\
  process_document Samples.w_empty_pdf None " http://h/empty.pdf" "HTML" ∅
    = (∅, Ok ("No images could be extracted from the provided file or URL",
              None, None)).
Proof.
  assert (Hu : PyStr.strip " http://h/empty.pdf" <> "")
    by (vm_compute; discriminate).
  assert (Hl : load_input_resource Samples.w_empty_pdf ∅
                 (PyStr.strip " http://h/empty.pdf") = Ok [])
    by (by vm_compute).
  split; [reflexivity |]. split; [exact Hu |]. split; [exact Hl |].
  exact (X5_no_page_no_run Samples.w_empty_pdf Demo.hello_engine
           " http://h/empty.pdf" "HTML" ∅ eq_refl Hu Hl).
Defined.

(** ** Failures and ends of the token stream *)

Lemma run_pages_from_abort eng p n pre img post e :
  forall st i,
    Forall (fun im => is_Ok (generate_page eng p im)) pre ->
    generate_page eng p img = Raise e ->
    run_pages_from eng p n st i (pre ++ img :: post) = Raise e.
Proof.
  induction pre as [|im pre IH]; intros st i Hpre Hraise; simpl.
  - unfold page_step. now rewrite Hraise.
  - inversion Hpre as [|? ? [r Hr] Hrest]; subst.
    unfold page_step. rewrite Hr, !bind_Ok. now apply IH.
Qed.

(** X6: an exception of the engine on one page ends the whole run: when
    the pages before it generate and the generation of a page raises [e],
    the loop raises [e], no later page is processed, and
    [process_document], given such a run for a URL, hands [e] to its
    handler: for an [e] the handler catches it answers with the error text
    of [e] and nothing of the pages already generated. *)
Theorem X6_engine_exception_aborts_run (w : World) (eng : engine)
    (pre post : list image) (img : image) (e : exn) (p : string)
    (url_input export_format : string) (fs : gmap string (list byte)) :
  Forall (fun im => is_Ok (generate_page eng p im)) pre ->
  generate_page eng p img = Raise e ->
  run_pages eng p (pre ++ img :: post) = Raise e /\
  (w_load_model w = Ok eng ->
   PyStr.strip url_input <> "" ->
   load_input_resource w fs (PyStr.strip url_input) = Ok (pre ++ img :: post) ->
   chat_template eng PROMPT 1 = Ok p ->
   process_document w None url_input export_format fs
     = (fs, except_Exception e) /\
   (exc_is_exception e = true ->
    process_document w None url_input export_format fs
      = (fs, Ok (error_answer e)))).
Proof.
  intros Hpre Hraise.
  assert (Hrun : run_pages eng p (pre ++ img :: post) = Raise e)
    by (now apply run_pages_from_abort).
  split; [exact Hrun |]. intros Hm Hu Hl Hc.
  unfold process_document, process_document_body, io_bind, io_lift.
  rewrite Hm. destruct (String.eqb_spec (PyStr.strip url_input) "");
    [contradiction |].
  simpl. unfold convert, io_bind, io_lift. rewrite Hl.
  destruct (pre ++ img :: post) as [|first rest] eqn:Himgs.
  { destruct pre; discriminate. }
  rewrite Hc, Hrun. simpl. split; [reflexivity |].
  intros He. unfold except_Exception. now rewrite He.
Qed.

Lemma X6_engine_exception_witness :
  Forall (fun im => is_Ok (generate_page Samples.faulty_engine PROMPT im))
         [Img 0] /\
  generate_page Samples.faulty_engine PROMPT (Img 1)
    = Raise Samples.out_of_memory /\
  run_pages Samples.faulty_engine PROMPT ([Img 0] ++ Img 1 :: [Img 2])
    = Raise Samples.out_of_memory.
Proof.
  assert (H0 : Forall (fun im => is_Ok (generate_page Samples.faulty_engine
                                          PROMPT im)) [Img 0]).
  { constructor; [| constructor]. eexists. by vm_compute. }
  assert (H1 : generate_page Samples.faulty_engine PROMPT (Img 1)
               = Raise Samples.out_of_memory) by (by vm_compute).
  split; [exact H0 |]. split; [exact H1 |].
  exact (proj1 (X6_engine_exception_aborts_run Demo.w200
                  Samples.faulty_engine [Img 0] [Img 2] (Img 1)
                  Samples.out_of_memory PROMPT "" "" ∅ H0 H1)).
Defined.

Lemma consume_agree (s1 s2 : nat -> gen_step) (k : nat) (t : string) :
  (forall j, j <= k -> s1 j = s2 j) ->
  s1 k = GenToken t -> PyStr.contains DOCTAG_END t = true ->
  forall m n out d,
    n <= k ->
    consume (stream_from s1 n m) out d = consume (stream_from s2 n m) out d.
Proof.
  intros Hagree Hk Ht. induction m as [|m IH]; intros n out d Hn;
    [reflexivity |].
  simpl. rewrite <- (Hagree n Hn).
  destruct (s1 n) as [u| |e] eqn:Hs; simpl; try reflexivity.
  destruct (PyStr.contains DOCTAG_END u) eqn:Hu; [reflexivity |].
  apply IH. destruct (decide (n = k)) as [->|Hne]; [| lia].
  rewrite Hk in Hs. injection Hs as <-. congruence.
Qed.

(** X7: what the engine would do after the terminating token has no
    effect on a page: two engines that take the same steps up to a step
    that yields a token holding the closing doctag give the same output
    and the same number of tokens drawn, even if one of them would raise
    later. *)
Theorem X7_nothing_after_terminator_matters (eng1 eng2 : engine) (p : string)
    (img : image) (k : nat) (t : string) :
  (forall j, j <= k -> generate_step eng1 p img j = generate_step eng2 p img j) ->
  generate_step eng1 p img k = GenToken t ->
  PyStr.contains DOCTAG_END t = true ->
  generate_page eng1 p img = generate_page eng2 p img.
Proof.
  intros Hagree Hk Ht. unfold generate_page, stream_generate.
  apply (consume_agree _ _ k t Hagree Hk Ht). lia.
Qed.

Lemma X7_nothing_after_terminator_witness :
  generate_step Demo.hello_engine PROMPT (Img 0) 2 = GenToken "</doctag>" /\
  PyStr.contains DOCTAG_END "</doctag>" = true /\
  generate_page Demo.hello_engine PROMPT (Img 0)
    = generate_page Samples.fragile_engine PROMPT (Img 0).
Proof.
  split; [reflexivity |]. split; [reflexivity |].
  apply (X7_nothing_after_terminator_matters Demo.hello_engine
           Samples.fragile_engine PROMPT (Img 0) 2 "</doctag>");
    [| reflexivity | reflexivity].
  intros [|[|[|j]]] Hj; [reflexivity | reflexivity | reflexivity | lia].
Defined.

(** ** The processing log *)

Lemma run_pages_from_log eng p n images :
  forall st i st',
    run_pages_from eng p n st i images = Ok st' ->
    exists outs,
      all_outputs st' = all_outputs st ++ outs /\
      length outs = length images /\
      processing_log st' = processing_log st +:+ pages_log n i outs.
Proof.
  induction images as [|img rest IH]; intros st i st'; simpl.
  - intros [= <-]. exists []. rewrite app_nil_r. simpl.
    now rewrite append_empty_r.
  - intros H. apply bind_Ok_inv in H as (st1 & Hstep & Hrest).
    unfold page_step in Hstep.
    apply bind_Ok_inv in Hstep as (r & Hr & [= <-]).
    apply IH in Hrest as (outs & Ho & Hlen & Hlog). simpl in Ho, Hlog.
    exists (r.1 :: outs). split; [| split].
    + rewrite Ho, <- app_assoc. reflexivity.
    + simpl. now rewrite Hlen.
    + rewrite Hlog. cbn [pages_log]. unfold page_log.
      now rewrite !append_assoc'.
Qed.

Lemma run_pages_log eng p images st :
  run_pages eng p images = Ok st ->
  processing_log st = pages_log (length images) 0 (all_outputs st).
Proof.
  intros H. apply run_pages_from_log in H as (outs & Ho & _ & Hlog).
  simpl in Ho, Hlog. now rewrite Ho, Hlog, append_nil_l.
Qed.

(** X8: after a run the log consists of one entry per page, in page
    order: the line [Processing page i/N...] with [i] counted from 1 and
    [N] the number of pages, the line [DocTags:], and the output of the
    page verbatim, each followed by an empty line. *)
Theorem X8_log_lists_pages_in_order (eng : engine) (p : string)
    (images : list image) (st : loop_state) :
  run_pages eng p images = Ok st ->
  processing_log st = pages_log (length images) 0 (all_outputs st).
Proof.
  apply run_pages_log.
Qed.

Lemma X8_log_witness :
  exists st,
    run_pages Demo.hello_engine PROMPT [Img 4; Img 2] = Ok st /\
    processing_log st = pages_log 2 0 (all_outputs st).
Proof.
  eexists. split; [by vm_compute |].
  match goal with
  | |- processing_log ?s = _ =>
      exact (X8_log_lists_pages_in_order Demo.hello_engine PROMPT
               [Img 4; Img 2] s ltac:(by vm_compute))
  end.
Defined.

(** ** More on the Resource Loader *)

Lemma singleton_outcome_length {A} (m : outcome A) (l : list A) :
  (x ← m; Ok [x]) = Ok l -> length l = 1.
Proof. destruct m as [e|a]; [discriminate |]. now intros [= <-]. Qed.

(** X9: what is not taken for a PDF gives exactly one page: when the load
    of a local path whose suffix is not [.pdf], or of a URL whose body
    does not start with [%PDF], returns, it returns a list of one image. *)
Theorem X9_image_resource_is_one_page (w : World)
    (fs : gmap string (list byte)) (ref scheme : string)
    (images : list image) :
  w_urlparse_scheme w ref = Ok scheme ->
  load_input_resource w fs ref = Ok images ->
  (scheme = "" -> PyStr.lower (Path.suffix ref) <> ".pdf" ->
   length images = 1) /\
  (scheme <> "" ->
   forall st why final data,
     w_network w (Request "GET" ref true 10)
       = NetResponse st why final (Ok data) ->
     take 4 data <> PDF_MAGIC ->
     length images = 1).
Proof.
  intros Hp Hload. split.
  - intros -> Hs. rewrite (load_scheme_local _ _ _ Hp) in Hload.
    unfold load_local in Hload.
    destruct (String.eqb_spec (PyStr.lower (Path.suffix ref)) ".pdf");
      [contradiction |].
    exact (singleton_outcome_length _ _ Hload).
  - intros Hne st why final data Hnet Hm.
    rewrite (load_scheme_remote _ _ _ _ Hp Hne) in Hload.
    unfold load_remote, requests_get in Hload. rewrite Hnet, bind_Ok in Hload.
    destruct (raise_for_status (Response st why final (Ok data)));
      [discriminate |].
    rewrite bind_Ok in Hload. simpl content in Hload.
    rewrite bind_Ok in Hload. apply bytes_eqb_neq in Hm. rewrite Hm in Hload.
    exact (singleton_outcome_length _ _ Hload).
Qed.

Lemma X9_image_resource_witness :
  w_urlparse_scheme Demo.w200 "scan.png" = Ok "" /\
  load_input_resource Demo.w200 (<["scan.png" := Demo.png_bytes]> ∅) "scan.png"
    = Ok [Img 7] /\
  PyStr.lower (Path.suffix "scan.png") <> ".pdf" /\
  length [Img 7] = 1.
Proof.
  assert (Hl : load_input_resource Demo.w200
                 (<["scan.png" := Demo.png_bytes]> ∅) "scan.png" = Ok [Img 7])
    by (by vm_compute).
  assert (Hs : PyStr.lower (Path.suffix "scan.png") <> ".pdf")
    by (vm_compute; discriminate).
  split; [reflexivity |]. split; [exact Hl |]. split; [exact Hs |].
  exact (proj1 (X9_image_resource_is_one_page Demo.w200 _ "scan.png" ""
                  [Img 7] eq_refl Hl) eq_refl Hs).
Defined.

(** ** More on the download step *)

Lemma utf8_char_raise (c : N) (e : exn) :
  utf8_char c = Raise e -> e = UnicodeEncodeError.
Proof.
  unfold utf8_char.
  destruct (c <? 128)%N; [discriminate |].
  destruct (c <? 2048)%N; [discriminate |].
  destruct (is_scalar c); simpl.
  - destruct (c <? 65536)%N; discriminate.
  - now intros [= <-].
Qed.

Lemma utf8_char_surrogate (c : N) :
  is_scalar c = false -> utf8_char c = Raise UnicodeEncodeError.
Proof.
  intros H. unfold utf8_char.
  assert (Hc : (0xD800 <= c)%N).
  { unfold is_scalar in H.
    destruct (N.ltb_spec c 0xD800); [| assumption].
    simpl in H. destruct (N.leb_spec c 0x10FFFF); [discriminate | lia]. }
  destruct (N.ltb_spec c 128); [lia |].
  destruct (N.ltb_spec c 2048); [lia |].
  now rewrite H.
Qed.

Lemma utf8_encode_surrogate (s : list N) :
  Exists (fun c => is_scalar c = false) s ->
  utf8_encode s = Raise UnicodeEncodeError.
Proof.
  induction 1 as [c s Hc | c s _ IH]; simpl.
  - now rewrite (utf8_char_surrogate c Hc).
  - destruct (utf8_char c) as [e|b] eqn:Hb.
    + now rewrite (utf8_char_raise c e Hb).
    + now rewrite bind_Ok, IH.
Qed.

(** X11: a payload with a character that UTF-8 cannot encode (a lone
    surrogate) makes the download step raise [UnicodeEncodeError] after
    the temporary file has been created: the file stays behind, empty, and
    no name is handed to the download buttons. *)
Theorem X11_unencodable_payload_leaves_empty_file (w : World)
    (result : list N) (export_format : string)
    (fs : gmap string (list byte)) (stem : string) :
  w_tmp_stem w fs = Ok stem ->
  Exists (fun c => is_scalar c = false) result ->
  prepare_download w result export_format fs
    = (<[stem +:+ download_ext export_format := []]> fs,
       Raise UnicodeEncodeError).
Proof.
  intros Hs Hex.
  unfold prepare_download, NamedTemporaryFile, io_bind, io_write, io_lift,
    io_ret.
  now rewrite Hs, (utf8_encode_surrogate result Hex).
Qed.

Lemma X11_unencodable_witness :
  w_tmp_stem Demo.w200 ∅ = Ok "/tmp/tmpf1" /\
  Exists (fun c => is_scalar c = false) [0x48; 0xD800]%N /\
  prepare_download Demo.w200 [0x48; 0xD800]%N "JSON" ∅
    = (<["/tmp/tmpf1.json" := []]> ∅, Raise UnicodeEncodeError).
Proof.
  assert (Hex : Exists (fun c => is_scalar c = false) [0x48; 0xD800]%N)
    by (right; left; reflexivity).
  split; [reflexivity |]. split; [exact Hex |].
  exact (X11_unencodable_payload_leaves_empty_file Demo.w200
           [0x48; 0xD800]%N "JSON" ∅ "/tmp/tmpf1" eq_refl Hex).
Defined.

(** X12: the download file is a [.txt] file exactly when the format is
    none of [Markdown], [HTML] and [JSON]; in that case too the payload is
    written, to the file named by the stem of [tempfile] followed by
    [.txt]. *)
Theorem X12_unknown_format_downloads_txt (w : World) (result : list N)
    (export_format : string) (fs : gmap string (list byte)) :
  (download_ext export_format = ".txt" <->
   export_format <> "Markdown" /\ export_format <> "HTML" /\
   export_format <> "JSON") /\
  (forall stem data,
     download_ext export_format = ".txt" ->
     w_tmp_stem w fs = Ok stem -> utf8_encode result = Ok data ->
     prepare_download w result export_format fs
       = (<[stem +:+ ".txt" := data]> fs,
          Ok (stem +:+ ".txt", stem +:+ ".txt"))).
Proof.
  split.
  - unfold download_ext.
    destruct (String.eqb_spec export_format "Markdown") as [->|Hm];
      [split; [discriminate | intros (H & _); contradiction] |].
    destruct (String.eqb_spec export_format "HTML") as [->|Hh];
      [split; [discriminate | intros (_ & H & _); contradiction] |].
    destruct (String.eqb_spec export_format "JSON") as [->|Hj];
      [split; [discriminate | intros (_ & _ & H); contradiction] |].
    split; auto.
  - intros stem data He Hs Hd.
    unfold prepare_download, NamedTemporaryFile, io_bind, io_write, io_lift,
      io_ret.
    rewrite Hs, Hd, He. now rewrite insert_insert_eq.
Qed.

Lemma X12_unknown_format_witness :
  download_ext "XML" = ".txt" /\
  w_tmp_stem Demo.w200 ∅ = Ok "/tmp/tmpf1" /\
  utf8_encode [0x48]%N = Ok [x48] /\
  prepare_download Demo.w200 [0x48]%N "XML" ∅
    = (<["/tmp/tmpf1.txt" := [x48]]> ∅, Ok ("/tmp/tmpf1.txt", "/tmp/tmpf1.txt")).
Proof.
  repeat (split; [reflexivity |]).
  exact (proj2 (X12_unknown_format_downloads_txt Demo.w200 [0x48]%N "XML" ∅)
           "/tmp/tmpf1" [x48] eq_refl eq_refl eq_refl).
Defined.

(** ** [render_output] *)



(** ** A run from end to end *)

(** X14: the answer of a run that succeeds for a URL: the assembler is
    given the outputs of the loop together with the pages as they were
    loaded, and the answer holds the exported text, the first page as the
    preview, and the log with one entry per page. *)
Theorem X14_answer_of_successful_run (w : World) (eng : engine)
    (url_input export_format p result : string)
    (fs fs' : gmap string (list byte)) (first : image) (rest : list image)
    (st : loop_state) (doc : DocumentTree) :
  w_load_model w = Ok eng ->
  PyStr.strip url_input <> "" ->
  load_input_resource w fs (PyStr.strip url_input) = Ok (first :: rest) ->
  chat_template eng PROMPT 1 = Ok p ->
  run_pages eng p (first :: rest) = Ok st ->
  w_assemble w (all_outputs st) (first :: rest) = Ok doc ->
  export_step w doc export_format fs = (fs', Ok result) ->
  process_document w None url_input export_format fs
    = (fs', Ok (result, Some first,
                Some (pages_log (S (length rest)) 0 (all_outputs st)))) /\
  length (all_outputs st) = S (length rest).
Proof.
  intros Hm Hu Hl Hc Hrun Ha He.
  pose proof (run_pages_log _ _ _ _ Hrun) as Hlog.
  pose proof Hrun as Hspec.
  apply run_pages_spec in Hspec as (rs & HF & Ho & Him & _).
  pose proof (Forall2_length _ _ _ HF) as Hlen.
  split; [| rewrite Ho, length_fmap; simpl in Hlen; lia].
  unfold process_document, process_document_body, io_bind, io_lift.
  rewrite Hm. destruct (String.eqb_spec (PyStr.strip url_input) "");
    [contradiction |].
  simpl. unfold convert, io_bind, io_lift, io_ret.
  rewrite Hl, Hc, Hrun, Him, Ha, He, Hlog. reflexivity.
Qed.

Lemma X14_answer_witness :
  exists st,
    run_pages Demo.hello_engine PROMPT [Img 0; Img 1] = Ok st /\
    process_document Demo.w200 None " http://h/report.png " "Markdown" ∅
      = (∅, Ok ("Hello", Some (Img 0),
                Some (pages_log 2 0 (all_outputs st)))).
Proof.
  eexists. split; [by vm_compute |].
  refine (proj1 (X14_answer_of_successful_run Demo.w200 Demo.hello_engine
                   " http://h/report.png " "Markdown" PROMPT "Hello" ∅ ∅
                   (Img 0) [Img 1] _ _ eq_refl _ _ eq_refl _ _ _)).
  - vm_compute. discriminate.
  - by vm_compute.
  - by vm_compute.
  - vm_compute. reflexivity.
  - by vm_compute.
Defined.
